(** * Real-estate chatbot: Router, Planner, Dispatcher and Memory

    A shallow embedding of the orchestration core of the chatbot
    ([scripts/agents/router.py], [scripts/agents/planner.py],
    [scripts/agents/structured_agent.py], [scripts/agents/memory.py] and
    [scripts/chat.py]) together with the properties the specification
    states about it.

    Conventions.
    - A decoded JSON value is a [json]; a Python [dict] with string keys is
      a [gmap string json]; a Python [set] of strings is a [gset string].
    - A Python [str] is a [string], one [ascii] per character.  Searching
      for a brace, replacing an underscore and comparing are exact on any
      text; case mapping ([title]) is exact on 7-bit ASCII, which covers
      every intent name.
    - Pure code that can raise returns a [res]; code that also reads or
      writes the [Memory] object runs in the monad [M], where the state
      survives an exception exactly as a mutated Python object does. *)

From Stdlib Require Import ZArith Ascii String Floats.SpecFloat.
From stdpp Require Import gmap strings list fin_maps pretty.

Local Open Scope string_scope.
Local Open Scope Z_scope.

(** ** Exceptions and results *)

Inductive exn : Type :=
| TypeError
| KeyError
| IndexError
| AttributeError
| JSONDecodeError
| RequestException
| HTTPError
| OperationalError
| ValueError
| ProgrammingError
| DataError
| AgentError.

Inductive res (A : Type) : Type :=
| Ok (a : A)
| Raise (e : exn).
Arguments Ok {A} a.
Arguments Raise {A} e.

Global Instance res_ret : MRet res := λ A a, Ok a.
Global Instance res_bind : MBind res := λ A B f r,
  match r with
  | Ok a => f a
  | Raise e => Raise e
  end.

(** ** Decoded JSON values *)

#[warnings="-register-all"]
Inductive json : Type :=
| JNull
| JBool (b : bool)
| JInt (z : Z)
| JFloat (f : spec_float)
| JStr (s : string)
| JArr (l : list json)
| JObj (m : gmap string json).

Definition LF : string := String "010"%char EmptyString.

Module Py.

(** Truth value of an object in a condition ([if x:], [not x]). *)
Definition truthy (v : json) : bool :=
  match v with
  | JNull => false
  | JBool b => b
  | JInt z => negb (z =? 0)
  | JFloat (S754_zero _) => false
  | JFloat _ => true
  | JStr s => negb (bool_decide (s = EmptyString))
  | JArr l => negb (bool_decide (length l = 0%nat))
  | JObj m => negb (bool_decide (size m = 0%nat))
  end.

(** Lists and dicts cannot be put in a [set] nor looked up in one. *)
Definition hashable (v : json) : bool :=
  match v with
  | JArr _ | JObj _ => false
  | _ => true
  end.

(** Numeric comparison is exact across [bool], [int] and [float]. *)
Definition float_eq_int (f : spec_float) (z : Z) : bool :=
  match f with
  | S754_zero _ => z =? 0
  | S754_finite s m e =>
      let v := if s then Z.neg m else Z.pos m in
      if 0 <=? e then z =? v * 2 ^ e else z * 2 ^ (- e) =? v
  | S754_infinity _ | S754_nan => false
  end.

(** Every [NaN] the decoder yields is one shared object, and a set looks
    a key up by identity before equality; so [S754_nan] matches itself. *)
Definition float_eq (f g : spec_float) : bool :=
  match f, g with
  | S754_nan, S754_nan => true
  | S754_zero _, S754_zero _ => true
  | S754_infinity s, S754_infinity t => Bool.eqb s t
  | S754_finite s m e, S754_finite t n k =>
      let b := Z.min e k in
      Bool.eqb s t && (Z.pos m * 2 ^ (e - b) =? Z.pos n * 2 ^ (k - b))
  | _, _ => false
  end.

Definition as_number (v : json) : option (Z + spec_float) :=
  match v with
  | JBool b => Some (inl (Z.b2z b))
  | JInt z => Some (inl z)
  | JFloat f => Some (inr f)
  | _ => None
  end.

Definition number_eq (x y : Z + spec_float) : bool :=
  match x, y with
  | inl a, inl b => a =? b
  | inl a, inr g => float_eq_int g a
  | inr f, inl b => float_eq_int f b
  | inr f, inr g => float_eq f g
  end.

(** Equality of two hashable objects as a set or dict sees it. *)
Definition key_eq (a b : json) : bool :=
  match a, b with
  | JNull, JNull => true
  | JStr s, JStr t => bool_decide (s = t)
  | _, _ =>
      match as_number a, as_number b with
      | Some x, Some y => number_eq x y
      | _, _ => false
      end
  end.

(** [x in seen] for a set [seen] kept as the list of its elements. *)
Definition set_contains (seen : list json) (x : json) : bool :=
  existsb (key_eq x) seen.

(** [text.find(c)] and [text.rfind(c)] for a one-character needle:
    the index of the first (last) occurrence, or [-1]. *)
Fixpoint find_from (c : ascii) (s : string) (i : Z) : Z :=
  match s with
  | EmptyString => -1
  | String a r => if Ascii.eqb a c then i else find_from c r (i + 1)
  end.

Fixpoint rfind_from (c : ascii) (s : string) (i : Z) : Z :=
  match s with
  | EmptyString => -1
  | String a r =>
      let j := rfind_from c r (i + 1) in
      if j =? -1 then (if Ascii.eqb a c then i else -1) else j
  end.

Definition find (c : ascii) (s : string) : Z := find_from c s 0.
Definition rfind (c : ascii) (s : string) : Z := rfind_from c s 0.

(** [text[start:stop]] for non-negative bounds; empty when
    [stop <= start]. *)
Definition slice (start stop : Z) (s : string) : string :=
  substring (Z.to_nat start) (Z.to_nat (stop - start)) s.

(** [obj[key]] with a string key. *)
Definition getitem_str (v : json) (k : string) : res json :=
  match v with
  | JObj m => match m !! k with Some x => Ok x | None => Raise KeyError end
  | _ => Raise TypeError
  end.

(** [obj[0]]. *)
Definition getitem_0 (v : json) : res json :=
  match v with
  | JArr (x :: _) => Ok x
  | JArr [] => Raise IndexError
  | JStr (String a _) => Ok (JStr (String a EmptyString))
  | JStr EmptyString => Raise IndexError
  | JObj _ => Raise KeyError
  | _ => Raise TypeError
  end.

(** [d.get(key)]: the value, or [None] when the key is absent. *)
Definition dict_get (d : gmap string json) (k : string) : json :=
  default JNull (d !! k).

End Py.

(** ** The Router ([agents/router.py]) *)

(** What [requests.post] can do: raise (connection error, timeout), or
    hand back a response with a status code and a body that
    [response.json()] decodes or fails to decode. *)
Inductive http_outcome : Type :=
| PostRaises
| Response (status : Z) (body : option json).

(** The text-completion collaborator and the JSON decoder.  [json_loads]
    stands for [json.loads] on the brace-delimited slice: [None] is a
    [JSONDecodeError], and a text that opens with a brace can only decode
    to a dict.  The fixed instruction block of the prompt is kept as the
    two constants that surround the user's query. *)
Record llm_service : Type := {
  prompt_head : string;
  prompt_tail : string;
  requests_post : string → http_outcome;
  json_loads : string → option (gmap string json)
}.

(** The dict the classifier hands on; only these three keys are ever read. *)
Record classification : Type := {
  in_scope : json;
  intents : list string;
  slots : json
}.

Definition allowed_intents : gset string :=
  {[ "search_property"; "estimate_renovation"; "generate_report";
     "save_preference"; "web_research"; "general_query" ]}.

Definition default_classification : classification :=
  {| in_scope := JBool true; intents := ["general_query"]; slots := JObj ∅ |}.

Module QueryRouter.

(** The first [if]/[elif] of [_validate_and_clean]: the value the loop
    iterates over. *)
Definition ensure_intents_list (result : gmap string json) : list json :=
  match result !! "intents" with
  | None => [JStr "general_query"]
  | Some (JArr l) => l
  | Some v => [v]
  end.

(** The de-duplication loop; [intent not in seen] raises on a list or a
    dict before anything is compared. *)
Fixpoint unique_loop (seen unique_intents intents : list json)
  : res (list json) :=
  match intents with
  | [] => Ok unique_intents
  | intent :: rest =>
      if Py.hashable intent then
        if Py.set_contains seen intent
        then unique_loop seen unique_intents rest
        else unique_loop (intent :: seen) (unique_intents ++ [intent]) rest
      else Raise TypeError
  end.

(** [intent in allowed_intents], keeping the string it matched. *)
Definition allowed (intent : json) : option string :=
  match intent with
  | JStr s => if bool_decide (s ∈ allowed_intents) then Some s else None
  | _ => None
  end.

Definition _validate_and_clean (result : gmap string json)
  : res classification :=
  unique_intents ← unique_loop [] [] (ensure_intents_list result);
  let validated_intents := omap allowed unique_intents in
  let validated_intents :=
    match validated_intents with
    | [] => ["general_query"]
    | _ => validated_intents
    end in
  Ok {| in_scope := default (JBool true) (result !! "in_scope");
        intents := validated_intents;
        slots := default (JObj ∅) (result !! "slots") |}.

Section WithService.
Variable svc : llm_service.

Definition _build_prompt (user_query : string) : string :=
  prompt_head svc ++ user_query ++ prompt_tail svc.

(** The value under [content] is handed back as it is, whatever its
    type. *)
Definition _call_llm (prompt : string) : res json :=
  match requests_post svc prompt with
  | PostRaises => Raise RequestException
  | Response status body =>
      if (400 <=? status) && (status <? 600) then Raise HTTPError
      else
        match body with
        | None => Raise JSONDecodeError
        | Some result =>
            choices ← Py.getitem_str result "choices";
            first ← Py.getitem_0 choices;
            message ← Py.getitem_str first "message";
            Py.getitem_str message "content"
        end
  end.

Definition json_slice (text : string) : string :=
  Py.slice (Py.find "{"%char text) (Py.rfind "}"%char text + 1) text.

Definition _extract_json (text : string) : res classification :=
  let start := Py.find "{"%char text in
  let end_ := Py.rfind "}"%char text + 1 in
  if (start =? -1) || (end_ =? 0) then Ok default_classification
  else
    match json_loads svc (Py.slice start end_ text) with
    | Some result => _validate_and_clean result
    | None => Ok default_classification
    end.

(** [_extract_json] applied to what the completion call returned: its
    first statement, [text.find], exists on a [str] only. *)
Definition _extract_json_of (llm_response : json) : res classification :=
  match llm_response with
  | JStr text => _extract_json text
  | _ => Raise AttributeError
  end.

Definition route (user_input : string)
  : res (string * list string * json) :=
  let prompt := _build_prompt user_input in
  llm_response ← _call_llm prompt;
  result ← _extract_json_of llm_response;
  if negb (Py.truthy (in_scope result)) then Ok ("out_of_scope", [], JObj ∅)
  else
    if bool_decide (length (intents result) = 1%nat)
    then Ok ("simple-query", intents result, slots result)
    else Ok ("complex-query", intents result, slots result).

End WithService.

End QueryRouter.

(** ** The Planner ([agents/planner.py]) *)

Record task : Type := {
  agent : string;
  params : gmap string json
}.

Module Planner.

(** The [agent_params] dict of [_extract_relevant_params]. *)
Definition agent_params : gmap string (list string) :=
  list_to_map
    [ ("search_property",
        ["location"; "num_rooms"; "max_price"; "property_size_sqft"]);
      ("estimate_renovation", ["property_size_sqft"; "num_rooms"]);
      ("generate_report", []);
      ("save_preference", ["location"; "num_rooms"; "max_price"]);
      ("web_research", []);
      ("general_query", ["certificate_keywords"]) ].

(** [needle in hay] for two strings. *)
Fixpoint str_contains (needle hay : string) : bool :=
  String.prefix needle hay
  || match hay with
     | EmptyString => false
     | String _ rest => str_contains needle rest
     end.

(** [key in slots]: a key test on a dict, an element test on a list, a
    substring test on a string, a [TypeError] on anything else. *)
Definition contains_key (slots : json) (key : string) : res bool :=
  match slots with
  | JObj m => Ok (bool_decide (is_Some (m !! key)))
  | JArr l => Ok (existsb (Py.key_eq (JStr key)) l)
  | JStr s => Ok (str_contains key s)
  | _ => Raise TypeError
  end.

(** The dict comprehension, one relevant key at a time. *)
Fixpoint collect_params (slots : json) (relevant_keys : list string)
    (params : gmap string json) : res (gmap string json) :=
  match relevant_keys with
  | [] => Ok params
  | key :: rest =>
      present ← contains_key slots key;
      if present : bool then
        value ← Py.getitem_str slots key;
        match value with
        | JNull => collect_params slots rest params
        | _ => collect_params slots rest (<[key := value]> params)
        end
      else collect_params slots rest params
  end.

Definition _extract_relevant_params (intent : string) (slots : json)
  : res (gmap string json) :=
  let relevant_keys := default [] (agent_params !! intent) in
  collect_params slots relevant_keys ∅.

Definition _plan_simple (intents : list string) (slots : json)
  : res (list task) :=
  match intents with
  | [] => Ok [ {| agent := "general_query"; params := ∅ |} ]
  | intent :: _ =>
      params ← _extract_relevant_params intent slots;
      Ok [ {| agent := intent; params := params |} ]
  end.

Fixpoint plan_loop (intents : list string) (slots : json) (tasks : list task)
  : res (list task) :=
  match intents with
  | [] => Ok tasks
  | intent :: rest =>
      params ← _extract_relevant_params intent slots;
      plan_loop rest slots (tasks ++ [ {| agent := intent; params := params |} ])
  end.

Definition _plan_complex (intents : list string) (slots : json)
  : res (list task) :=
  match intents with
  | [] => Ok [ {| agent := "general_query"; params := ∅ |} ]
  | _ => plan_loop intents slots []
  end.

Definition plan (query_type : string) (intents : list string) (slots : json)
  : res (list task) :=
  if bool_decide (query_type = "out_of_scope") then Ok []
  else if bool_decide (query_type = "simple-query")
       then _plan_simple intents slots
  else if bool_decide (query_type = "complex-query")
       then _plan_complex intents slots
  else _plan_simple intents slots.

End Planner.

(** ** The structured search's query builder ([agents/structured_agent.py]) *)

(** A bound parameter of the SQL statement: a filter value passed as it
    is, or the [ILIKE] pattern that wraps the value in percent signs. *)
Inductive sql_param : Type :=
| Plain (v : json)
| LikePattern (v : json).

Module StructuredAgent.

(** One [if filters.get(key): query += cond; params.append(...)]. *)
Definition add_filter (filters : gmap string json) (key cond : string)
    (wrap : json → sql_param) (acc : string * list sql_param)
  : string * list sql_param :=
  if Py.truthy (Py.dict_get filters key)
  then ((acc.1 ++ cond)%string, (acc.2 ++ [wrap (Py.dict_get filters key)])%list)
  else acc.

Definition _build_query (filters : gmap string json)
  : string * list sql_param :=
  let acc := ("SELECT * FROM properties WHERE 1=1", []) in
  let acc := add_filter filters "location" " AND location ILIKE %s" LikePattern acc in
  let acc := add_filter filters "num_rooms" " AND num_rooms = %s" Plain acc in
  let acc := add_filter filters "max_price" " AND price <= %s" Plain acc in
  let acc := add_filter filters "min_price" " AND price >= %s" Plain acc in
  let acc := add_filter filters "property_size_sqft"
               " AND property_size_sqft >= %s" Plain acc in
  ((acc.1 ++ " ORDER BY price ASC LIMIT 10")%string, acc.2).

End StructuredAgent.

(** ** The Memory object ([agents/memory.py]) *)

Record turn : Type := {
  role : string;
  content : string;
  timestamp : string
}.

(** The state a turn reads and writes: the fields of one [Memory]
    instance, the two stores behind it, and a record of the calls made to
    the report builder.  [redis] holds under each key the value that was
    serialised into it; an entry whose time-to-live has run out is simply
    absent.  [user_memory] is the table of the same name, keyed by
    [(user_id, memory_key)] and holding the column [memory_value];
    [db_reachable] tells whether [psycopg2.connect] succeeds, and
    [column_text] what the driver and the database make of a float or a
    list bound to that column: the text that is kept, or the exception
    that is raised.  [clock_reads] counts the readings of
    [datetime.now()]. *)
Record world : Type := {
  user_id : string;
  episodic : list turn;
  redis_available : bool;
  redis : gmap string json;
  shortterm : gmap string json;
  user_memory : gmap (string * string) json;
  db_reachable : bool;
  column_text : json → res string;
  clock_reads : nat;
  reports : list json
}.

Definition set_episodic (l : list turn) (n : nat) (w : world) : world :=
  {| user_id := user_id w; episodic := l;
     redis_available := redis_available w; redis := redis w;
     shortterm := shortterm w; user_memory := user_memory w;
     db_reachable := db_reachable w; column_text := column_text w;
     clock_reads := n;
     reports := reports w |}.

Definition set_redis (m : gmap string json) (w : world) : world :=
  {| user_id := user_id w; episodic := episodic w;
     redis_available := redis_available w; redis := m;
     shortterm := shortterm w; user_memory := user_memory w;
     db_reachable := db_reachable w; column_text := column_text w;
     clock_reads := clock_reads w;
     reports := reports w |}.

Definition set_shortterm (m : gmap string json) (w : world) : world :=
  {| user_id := user_id w; episodic := episodic w;
     redis_available := redis_available w; redis := redis w;
     shortterm := m; user_memory := user_memory w;
     db_reachable := db_reachable w; column_text := column_text w;
     clock_reads := clock_reads w;
     reports := reports w |}.

Definition set_user_memory (m : gmap (string * string) json) (w : world)
  : world :=
  {| user_id := user_id w; episodic := episodic w;
     redis_available := redis_available w; redis := redis w;
     shortterm := shortterm w; user_memory := m;
     db_reachable := db_reachable w; column_text := column_text w;
     clock_reads := clock_reads w;
     reports := reports w |}.

Definition set_reports (l : list json) (w : world) : world :=
  {| user_id := user_id w; episodic := episodic w;
     redis_available := redis_available w; redis := redis w;
     shortterm := shortterm w; user_memory := user_memory w;
     db_reachable := db_reachable w; column_text := column_text w;
     clock_reads := clock_reads w;
     reports := l |}.

(** State and exceptions: a computation returns a value or raises, and in
    both cases leaves a state behind. *)
Definition M (A : Type) : Type := world → res A * world.

Global Instance M_ret : MRet M := λ A a w, (Ok a, w).
Global Instance M_bind : MBind M := λ A B f m w,
  match m w with
  | (Ok a, w') => f a w'
  | (Raise e, w') => (Raise e, w')
  end.

Definition lift {A : Type} (r : res A) : M A := λ w, (r, w).
Definition modify (f : world → world) : M unit := λ w, (Ok tt, f w).
Definition gets {A : Type} (f : world → A) : M A := λ w, (Ok (f w), w).

Module Memory.

Section WithClock.
(** [datetime.now().isoformat()] at the n-th reading of the clock. *)
Variable now_isoformat : nat → string.

Definition add_message (role content : string) : M unit :=
  modify (λ w,
    set_episodic
      (episodic w ++ [ {| role := role; content := content;
                          timestamp := now_isoformat (clock_reads w) |} ])
      (S (clock_reads w)) w).
End WithClock.

(** [l[start:]] for a list, with Python's handling of a negative or an
    overlong start. *)
Definition list_slice_from {A : Type} (start : Z) (l : list A) : list A :=
  let len := Z.of_nat (length l) in
  let start := if start <? 0 then Z.max 0 (start + len) else Z.min start len in
  drop (Z.to_nat start) l.

(** [last_n] is [None] when the argument is omitted. *)
Definition get_conversation_history (last_n : option Z) (w : world)
  : list turn :=
  match last_n with
  | Some n => if negb (n =? 0) then list_slice_from (- n) (episodic w)
              else episodic w
  | None => episodic w
  end.

Definition clear_conversation : M unit :=
  modify (λ w, set_episodic [] (clock_reads w) w).

Definition full_key (w : world) (key : string) : string :=
  "session:" ++ user_id w ++ ":" ++ key.

(** The value is a decoded JSON value here: [json.dumps] accepts it, and
    decoding what it wrote gives the value back. *)
Definition set_context (key : string) (value : json) : M unit :=
  modify (λ w,
    if redis_available w
    then set_redis (<[full_key w key := value]> (redis w)) w
    else set_shortterm (<[full_key w key := value]> (shortterm w)) w).

(** [set_context] called with any Python object, which the program sees
    as [value]; [encodable] tells whether [json.dumps] accepts the
    object, as it does not when a date or a Decimal sits in it.  With the
    cache server, [json.dumps] runs and raises before anything is stored;
    the dict of the fallback keeps any object. *)
Definition set_context_object (encodable : bool) (key : string)
    (value : json) : M unit :=
  λ w,
    if redis_available w && negb encodable then (Raise TypeError, w)
    else set_context key value w.

(** [None] is [JNull]. *)
Definition get_context (key : string) : M json :=
  gets (λ w,
    if redis_available w
    then default JNull (redis w !! full_key w key)
    else default JNull (shortterm w !! full_key w key)).

(** The pattern [session:{user_id}:*] selects the keys that start with
    the user's prefix; this is what the pattern means for a user id free
    of the wildcard characters of the cache's patterns. *)
Definition clear_session : M unit :=
  modify (λ w,
    if redis_available w
    then set_redis
           (filter (λ kv, negb (String.prefix (full_key w EmptyString) kv.1) = true)
                   (redis w)) w
    else set_shortterm ∅ w).

(** A [str] bound to a [%s] placeholder: the driver refuses one that
    holds a NUL character. *)
Definition has_nul (s : string) : bool :=
  existsb (Ascii.eqb "000"%char) (list_ascii_of_string s).

Definition bind_str (s : string) : res string :=
  if has_nul s then Raise ValueError else Ok s.

(** What the column [memory_value TEXT] keeps for a value bound to it.
    [None] is the SQL null, and a string is kept as it is.  An [int] and
    a [bool] reach the database as a number and a boolean literal, which
    the column keeps as their text.  The driver cannot adapt a [dict]. *)
Definition memory_value (w : world) (value : json) : res json :=
  match value with
  | JNull => Ok JNull
  | JStr s => s ← bind_str s; Ok (JStr s)
  | JInt z => Ok (JStr (pretty z))
  | JBool b => Ok (JStr (if b then "true" else "false"))
  | JObj _ => Raise ProgrammingError
  | JFloat _ | JArr _ => t ← column_text w value; Ok (JStr t)
  end.

(** [VARCHAR(100)]: a longer text is refused.  (The database makes one
    exception, for an excess that consists of spaces, which it cuts off;
    user ids and keys are taken without such a tail.) *)
Definition fits_varchar_100 (s : string) : bool :=
  (String.length s <=? 100)%nat.

(** The [INSERT ... ON CONFLICT] statement with its three bound values:
    the driver adapts them in order, then the database checks the row.
    The result is the column value of the row that is written. *)
Definition insert_row (w : world) (key : string) (value : json) : res json :=
  uid ← bind_str (user_id w);
  k ← bind_str key;
  v ← memory_value w value;
  if fits_varchar_100 uid && fits_varchar_100 k then Ok v
  else Raise DataError.

(** Nothing is committed when the statement raises. *)
Definition save_preference (key : string) (value : json) : M unit :=
  λ w,
    if db_reachable w
    then
      match insert_row w key value with
      | Ok v =>
          (Ok tt, set_user_memory (<[(user_id w, key) := v]> (user_memory w)) w)
      | Raise e => (Raise e, w)
      end
    else (Raise OperationalError, w).

(** [None], for a missing row and for a null column, is [JNull]. *)
Definition get_preference (key : string) : M json :=
  λ w,
    if db_reachable w
    then
      match bind_str (user_id w) ≫= λ _, bind_str key with
      | Ok _ => (Ok (default JNull (user_memory w !! (user_id w, key))), w)
      | Raise e => (Raise e, w)
      end
    else (Raise OperationalError, w).

(** The rows of the user, as the dict from [memory_key] to
    [memory_value]. *)
Definition preferences_of (uid : string) (table : gmap (string * string) json)
  : gmap string json :=
  map_fold (λ '(u, k) v acc, if decide (u = uid) then <[k := v]> acc else acc)
           ∅ table.

Definition get_all_preferences : M (gmap string json) :=
  λ w,
    if db_reachable w
    then
      match bind_str (user_id w) with
      | Ok _ => (Ok (preferences_of (user_id w) (user_memory w)), w)
      | Raise e => (Raise e, w)
      end
    else (Raise OperationalError, w).

End Memory.

(** ** The chatbot ([chat.py]) *)

(** The objects a [RealEstateChatbot] holds besides its memory, each by
    the one method the dispatcher calls:
    - [route]: [self.router.route];
    - [execute_query]: running the built statement with its parameters
      ([cursor.execute] and [fetchall], rows as dicts), raising when the
      database does;
    - [rows_encodable]: whether [json.dumps] accepts the rows that
      [execute_query] returned, as it does not when a column holds a
      date or a Decimal;
    - [render_property]: the listing line of one property record in
      [_handle_search], raising when a field is missing;
    - [repr_other]: [str(x)] for a float, a list or a dict;
    - [renovation]: [estimate] followed by [format_estimate];
    - [generate_report]: [ReportGenerator.generate_report];
    - [rag_answer]: [RAGAgent.answer], as the pair of its answer and its
      sources;
    - [web_summary]: the summary of [WebResearchAgent.research], which
      absorbs its own failures;
    - [now_isoformat]: the clock. *)
Record agents : Type := {
  route : string → res (string * list string * json);
  execute_query : string → list sql_param → res (list json);
  rows_encodable : list json → bool;
  render_property : json → res string;
  repr_other : json → string;
  renovation : json → json → res string;
  generate_report : json → res json;
  rag_answer : string → json → res (string * list string);
  web_summary : string → string;
  now_isoformat : nat → string
}.

Module RealEstateChatbot.

Definition refusal : string :=
  "I can only help with real estate queries. Please ask about properties, prices, or renovations.".

Definition unknown_type_reply : string :=
  "I'm not sure how to help with that. Try asking about property search or renovation estimates.".

Definition unknown_agent_reply : string :=
  "I'm not sure how to help with that.".

Definition search_first : string :=
  "No recent property searches found. Please search for properties first.".

Definition could_not_generate : string :=
  "Could not generate report. Please search for properties first.".

Definition preferences_saved : string :=
  "Preferences saved! I'll remember them for future searches.".

(** [sep.join(parts)]. *)
Fixpoint join (sep : string) (parts : list string) : string :=
  match parts with
  | [] => EmptyString
  | [p] => p
  | p :: rest => p ++ sep ++ join sep rest
  end.

(** [s.replace(a, b)] for one-character [a] and [b]. *)
Fixpoint replace (a b : ascii) (s : string) : string :=
  match s with
  | EmptyString => EmptyString
  | String c r => String (if Ascii.eqb c a then b else c) (replace a b r)
  end.

Definition is_lower (c : ascii) : bool :=
  (97 <=? nat_of_ascii c)%nat && (nat_of_ascii c <=? 122)%nat.
Definition is_upper (c : ascii) : bool :=
  (65 <=? nat_of_ascii c)%nat && (nat_of_ascii c <=? 90)%nat.
Definition to_upper (c : ascii) : ascii :=
  if is_lower c then ascii_of_nat (nat_of_ascii c - 32) else c.
Definition to_lower (c : ascii) : ascii :=
  if is_upper c then ascii_of_nat (nat_of_ascii c + 32) else c.

(** [s.title()]: a cased character is upper-cased when the one before
    it is not cased, lower-cased otherwise. *)
Fixpoint title_from (previous_is_cased : bool) (s : string) : string :=
  match s with
  | EmptyString => EmptyString
  | String c r =>
      if is_lower c || is_upper c
      then String (if previous_is_cased then to_lower c else to_upper c)
                  (title_from true r)
      else String c (title_from false r)
  end.

Definition title (s : string) : string := title_from false s.

(** [properties[:10]]. *)
Definition first_ten (properties : json) : res json :=
  match properties with
  | JArr l => Ok (JArr (take 10 l))
  | JStr s => Ok (JStr (substring 0 10 s))
  | _ => Raise TypeError
  end.

Section WithAgents.
Variable self : agents.

(** [str(x)], as an f-string or [str()] renders a value. *)
Definition str (v : json) : string :=
  match v with
  | JStr s => s
  | JInt z => pretty z
  | JNull => "None"
  | JBool true => "True"
  | JBool false => "False"
  | _ => repr_other self v
  end.

Definition search_properties (filters : gmap string json)
  : res (list json) :=
  let '(query, params) := StructuredAgent._build_query filters in
  execute_query self query params.

Fixpoint render_listing (response : string) (properties : list json)
  : res string :=
  match properties with
  | [] => Ok response
  | prop :: rest =>
      line ← render_property self prop;
      render_listing (response ++ line) rest
  end.

Definition _handle_search (slots : gmap string json) : M string :=
  properties ← lift (search_properties slots);
  match properties with
  | [] =>
      mret ("No properties found matching your criteria: "
            ++ str (JObj slots))
  | _ =>
      let n := length properties in
      let response := "Found " ++ pretty n ++ " properties:" ++ LF ++ LF in
      response ← lift (render_listing response (take 10 properties));
      let response :=
        if (10 <? n)%nat
        then response ++ LF ++ "... and " ++ pretty (n - 10)%nat
             ++ " more properties"
        else response in
      Memory.set_context_object (rows_encodable self properties)
        "last_search_results" (JArr properties);;
      mret response
  end.

Definition _handle_renovation (slots : gmap string json) : M string :=
  lift (renovation self (Py.dict_get slots "property_size_sqft")
                        (Py.dict_get slots "num_rooms")).

Definition _handle_report (slots : gmap string json) : M string :=
  properties ← Memory.get_context "last_search_results";
  if negb (Py.truthy properties) then mret search_first
  else
    properties ← lift (first_ten properties);
    if negb (Py.truthy properties) then mret could_not_generate
    else
      modify (λ w, set_reports (reports w ++ [properties]) w);;
      pdf_path ← lift (generate_report self properties);
      mret ("Report generated successfully! Saved to: " ++ str pdf_path).

Definition _handle_save_preference (slots : gmap string json)
    (user_input : string) : M string :=
  (if Py.truthy (Py.dict_get slots "max_price")
   then Memory.save_preference "budget"
          (JStr (str (Py.dict_get slots "max_price")))
   else mret tt);;
  (if Py.truthy (Py.dict_get slots "location")
   then Memory.save_preference "preferred_location"
          (Py.dict_get slots "location")
   else mret tt);;
  (if Py.truthy (Py.dict_get slots "num_rooms")
   then Memory.save_preference "preferred_rooms"
          (JStr (str (Py.dict_get slots "num_rooms")))
   else mret tt);;
  mret preferences_saved.

Definition _handle_web_research (user_input : string) : M string :=
  mret (web_summary self user_input).

Definition _handle_general_query (user_input : string)
    (params : gmap string json) : M string :=
  let certificate_keywords := Py.dict_get params "certificate_keywords" in
  '(answer, sources) ← lift (rag_answer self user_input certificate_keywords);
  match sources with
  | [] => mret answer
  | _ => mret (answer ++ LF ++ LF ++ "Sources: " ++ join ", " sources)
  end.

Definition _execute_task (task : task) (user_input : string) : M string :=
  let agent := agent task in
  let params := params task in
  if bool_decide (agent = "search_property") then _handle_search params
  else if bool_decide (agent = "estimate_renovation")
       then _handle_renovation params
  else if bool_decide (agent = "generate_report") then _handle_report params
  else if bool_decide (agent = "save_preference")
       then _handle_save_preference params user_input
  else if bool_decide (agent = "web_research")
       then _handle_web_research user_input
  else if bool_decide (agent = "general_query")
       then _handle_general_query user_input params
  else mret unknown_agent_reply.

(** The block one task contributes to a combined response. *)
Definition labelled (task : task) (response : string) : string :=
  let agent_name := title (replace "_" " " (agent task)) in
  "**" ++ agent_name ++ ":**" ++ LF ++ response.

Fixpoint execute_loop (tasks : list task) (user_input : string)
    (responses : list string) : M (list string) :=
  match tasks with
  | [] => mret responses
  | task :: rest =>
      response ← _execute_task task user_input;
      execute_loop rest user_input (responses ++ [labelled task response])
  end.

Definition separator : string := LF ++ LF ++ "---" ++ LF ++ LF.

Definition _execute_complex_tasks (tasks : list task) (user_input : string)
  : M string :=
  responses ← execute_loop tasks user_input [];
  mret (LF ++ LF ++ join separator responses).

(** Step 3 of [chat]: the branch on the query type. *)
Definition dispatch (query_type : string) (tasks : list task)
    (user_input : string) : M string :=
  if bool_decide (query_type = "out_of_scope") then mret refusal
  else if bool_decide (query_type = "simple-query") then
    match tasks with
    | task :: _ => _execute_task task user_input
    | [] => lift (Raise IndexError)
    end
  else if bool_decide (query_type = "complex-query")
    then _execute_complex_tasks tasks user_input
  else mret unknown_type_reply.

Definition chat (user_input : string) : M string :=
  Memory.add_message (now_isoformat self) "user" user_input;;
  '(query_type, intents, slots) ← lift (route self user_input);
  tasks ← lift (Planner.plan query_type intents slots);
  response ← dispatch query_type tasks user_input;
  Memory.add_message (now_isoformat self) "assistant" response;;
  mret response.

End WithAgents.

(** A chatbot as [__init__] builds it: the router is a [QueryRouter]. *)
Definition with_router (svc : llm_service) (a : agents) : agents :=
  {| route := QueryRouter.route svc;
     execute_query := execute_query a;
     rows_encodable := rows_encodable a;
     render_property := render_property a;
     repr_other := repr_other a;
     renovation := renovation a;
     generate_report := generate_report a;
     rag_answer := rag_answer a;
     web_summary := web_summary a;
     now_isoformat := now_isoformat a |}.

End RealEstateChatbot.

(** ** The renovation estimator ([agents/renovation.py]) *)

(** One level of an estimate, and the dict [estimate] returns: either the
    single key [error], or the size and the three levels. *)
Record level_cost : Type := {
  total : Z;
  per_sqft : Z;
  description : string
}.

Inductive costs : Type :=
| CostsError (error : string)
| Costs (property_size_sqft : Z) (basic moderate premium : level_cost).

Module RenovationEstimator.

(** [self.rates], by level. *)
Definition rate_basic : Z := 500.
Definition rate_moderate : Z := 1200.
Definition rate_premium : Z := 2500.

Definition _estimate_size (num_rooms : Z) : Z :=
  if num_rooms =? 1 then 600
  else if num_rooms =? 2 then 1000
  else if num_rooms =? 3 then 1400
  else if num_rooms =? 4 then 1800
  else num_rooms * 450.

(** The two arguments are typed as the signature types them: an [int], or
    [None]. *)
Definition estimate (property_size_sqft num_rooms : option Z) : costs :=
  let property_size_sqft :=
    match property_size_sqft, num_rooms with
    | None, Some n => if negb (n =? 0) then Some (_estimate_size n) else None
    | _, _ => property_size_sqft
    end in
  match property_size_sqft with
  | None => CostsError "Need property size or number of rooms"
  | Some size =>
      Costs size
        {| total := size * rate_basic; per_sqft := rate_basic;
           description := "Basic painting, minor repairs" |}
        {| total := size * rate_moderate; per_sqft := rate_moderate;
           description := "Flooring, electrical, plumbing upgrades" |}
        {| total := size * rate_premium; per_sqft := rate_premium;
           description := "Complete makeover with modular fittings" |}
  end.

(** [format(n, ',')]: the decimal digits in groups of three, counted from
    the right, after the sign. *)
Fixpoint group_thousands (reversed_digits : list ascii) : list ascii :=
  match reversed_digits with
  | a :: b :: c :: ((_ :: _) as rest) =>
      a :: b :: c :: ","%char :: group_thousands rest
  | _ => reversed_digits
  end.

Definition with_commas (n : Z) : string :=
  (if n <? 0 then "-" else EmptyString)
  ++ string_of_list_ascii
       (reverse (group_thousands
                   (reverse (list_ascii_of_string (pretty (Z.abs n)))))).

(** [s.upper()], exact on 7-bit ASCII. *)
Fixpoint upper (s : string) : string :=
  match s with
  | EmptyString => EmptyString
  | String c r => String (RealEstateChatbot.to_upper c) (upper r)
  end.

Definition format_level (level : string) (cost_info : level_cost) : string :=
  upper level ++ ":" ++ LF
  ++ "  Total: Rs." ++ with_commas (total cost_info) ++ LF
  ++ "  Rate: Rs." ++ pretty (per_sqft cost_info) ++ "/sqft" ++ LF
  ++ "  Includes: " ++ description cost_info ++ LF ++ LF.

Definition format_estimate (costs : costs) : string :=
  match costs with
  | CostsError error => error
  | Costs size basic moderate premium =>
      "Renovation Cost Estimates for " ++ pretty size ++ " sqft:" ++ LF ++ LF
      ++ format_level "basic" basic
      ++ format_level "moderate" moderate
      ++ format_level "premium" premium
  end.

End RenovationEstimator.

(** ** The web research agent ([agents/web_research.py]) *)

(** The search collaborator: the key read from the environment ([None]
    when unset), what [requests.post] does for a query, and [str(x)] for
    a float, a list or a dict. *)
Record web_service : Type := {
  tavily_api_key : option string;
  tavily_post : string → http_outcome;
  web_repr_other : json → string
}.

Module WebResearchAgent.

Definition no_data : string := "No recent market data found.".

Definition _fallback_response (query : string) : json * string :=
  (JArr [],
   "Real-time market data for '" ++ query ++ "' is not available. "
   ++ "Please check with local real estate websites for current rates.").

Section WithService.
Variable self : web_service.

(** [str(x)] inside an f-string. *)
Definition str (v : json) : string :=
  match v with
  | JStr s => s
  | JInt z => pretty z
  | JNull => "None"
  | JBool true => "True"
  | JBool false => "False"
  | _ => web_repr_other self v
  end.

(** [x[:200]]. *)
Definition first_200 (content : json) : res json :=
  match content with
  | JStr s => Ok (JStr (substring 0 200 s))
  | JArr l => Ok (JArr (take 200 l))
  | _ => Raise TypeError
  end.

(** One iteration of the loop: [result.get] needs a dict. *)
Definition summary_part (i : nat) (result : json) : res string :=
  match result with
  | JObj m =>
      let title := default (JStr "N/A") (m !! "title") in
      content ← first_200 (default (JStr "N/A") (m !! "content"));
      Ok (pretty i ++ ". " ++ str title ++ ": " ++ str content ++ "...")
  | _ => Raise AttributeError
  end.

Fixpoint summary_parts (i : nat) (results : list json) : res (list string) :=
  match results with
  | [] => Ok []
  | result :: rest =>
      part ← summary_part i result;
      parts ← summary_parts (S i) rest;
      Ok (part :: parts)
  end.

(** A non-empty string passes the first test and fails at the first
    [result.get]; a number or a dict cannot be sliced. *)
Definition _summarize_results (results : json) : res string :=
  if negb (Py.truthy results) then Ok no_data
  else
    match results with
    | JArr l =>
        summary_parts ← summary_parts 1 (take 3 l);
        Ok (RealEstateChatbot.join (LF ++ LF) summary_parts)
    | JStr _ => Raise AttributeError
    | _ => Raise TypeError
    end.

(** The body of the [try]; any exception there ends in the fallback. *)
Definition research_attempt (query : string) : res (json * string) :=
  match tavily_post self query with
  | PostRaises => Raise RequestException
  | Response status body =>
      if status =? 200 then
        match body with
        | None => Raise JSONDecodeError
        | Some (JObj data) =>
            let results := default (JArr []) (data !! "results") in
            summary ← _summarize_results results;
            Ok (results, summary)
        | Some _ => Raise AttributeError
        end
      else Ok (_fallback_response query)
  end.

(** The pair of [results] and [summary] of the dict that is returned. *)
Definition research (query : string) : json * string :=
  match tavily_api_key self with
  | None | Some EmptyString => _fallback_response query
  | Some _ =>
      match research_attempt query with
      | Ok r => r
      | Raise _ => _fallback_response query
      end
  end.

End WithService.

End WebResearchAgent.

(** * Specification-level definitions *)

(** The closed enumeration of intent names, as the specification lists it. *)
Definition intent_enumeration : list string :=
  [ "search_property"; "estimate_renovation"; "generate_report";
    "save_preference"; "web_research"; "general_query" ].

(** Removing duplicates while keeping each first occurrence, as the
    specification words the repair rule. *)
Fixpoint dedup_first (l : list string) : list string :=
  match l with
  | [] => []
  | x :: rest => x :: filter (λ y, y ≠ x) (dedup_first rest)
  end.

(** The validated intents, as the specification describes the repair:
    duplicates removed with each first occurrence kept, names outside
    the enumeration discarded, and the default when nothing is left. *)
Definition repaired_intents (ss : list string) : list string :=
  match filter (λ s, s ∈ allowed_intents) (dedup_first ss) with
  | [] => ["general_query"]
  | l => l
  end.

(** The allow-list table of the specification; a name outside the
    enumeration has no parameters. *)
Definition allow_list (intent : string) : list string :=
  if bool_decide (intent = "search_property")
  then ["location"; "num_rooms"; "max_price"; "property_size_sqft"]
  else if bool_decide (intent = "estimate_renovation")
  then ["property_size_sqft"; "num_rooms"]
  else if bool_decide (intent = "generate_report") then []
  else if bool_decide (intent = "save_preference")
  then ["location"; "num_rooms"; "max_price"]
  else if bool_decide (intent = "web_research") then []
  else if bool_decide (intent = "general_query") then ["certificate_keywords"]
  else [].

(** A task paired with the intent it was planned for. *)
Definition planned_for (slots : json) (intent : string) (t : task) : Prop :=
  agent t = intent
  ∧ Planner._extract_relevant_params intent slots = Ok (params t).

(** The five filters of the structured search: key, condition text and
    the way the value is bound. *)
Definition filter_table : list (string * string * (json → sql_param)) :=
  [ ("location", " AND location ILIKE %s", LikePattern);
    ("num_rooms", " AND num_rooms = %s", Plain);
    ("max_price", " AND price <= %s", Plain);
    ("min_price", " AND price >= %s", Plain);
    ("property_size_sqft", " AND property_size_sqft >= %s", Plain) ].

(** The conditions a filter mapping contributes: one per key that holds a
    value Python counts as true, in the order of the table. *)
Definition contributions (filters : gmap string json)
  : list (string * sql_param) :=
  omap (λ '(key, cond, wrap),
          if Py.truthy (Py.dict_get filters key)
          then Some (cond, wrap (Py.dict_get filters key))
          else None)
       filter_table.

(** The most recent [n] entries of a log, oldest first. *)
Definition most_recent {A : Type} (n : nat) (l : list A) : list A :=
  drop (length l - n) l.




(** A text the columns [user_id] and [memory_key] accept: free of NUL and
    of at most 100 characters. *)
Definition storable (s : string) : Prop :=
  Memory.has_nul s = false ∧ (String.length s ≤ 100)%nat.


(** What the session memory holds under [last_search_results]; [JNull]
    when the key is absent. *)
Definition last_search_results (w : world) : json :=
  match (Memory.get_context "last_search_results" w).1 with
  | Ok v => v
  | Raise _ => JNull
  end.

(** Running the tasks of a plan one after the other, each on the state the
    one before left behind, and collecting what the handlers return. *)
Inductive runs (self : agents) (user_input : string)
  : list task → world → list string → world → Prop :=
| runs_nil w : runs self user_input [] w [] w
| runs_cons t ts w r w1 rs w2 :
    RealEstateChatbot._execute_task self t user_input w = (Ok r, w1) →
    runs self user_input ts w1 rs w2 →
    runs self user_input (t :: ts) w (r :: rs) w2.

(** The label of a block: the intent name with underscores turned into
    spaces, in title case. *)
Definition human_readable (intent : string) : string :=
  RealEstateChatbot.title (RealEstateChatbot.replace "_" " " intent).

(** Two states with the same conversation log and clock. *)
Definition same_log (w w' : world) : Prop :=
  episodic w' = episodic w ∧ clock_reads w' = clock_reads w.

(** Two states with the same session memory, for the same user. *)
Definition same_session (w w' : world) : Prop :=
  user_id w' = user_id w ∧ redis_available w' = redis_available w ∧
  redis w' = redis w ∧ shortterm w' = shortterm w.

(** The two entries a turn adds to the log. *)
Definition user_turn (self : agents) (user_input : string) (w : world) : turn :=
  {| role := "user"; content := user_input;
     timestamp := now_isoformat self (clock_reads w) |}.

Definition assistant_turn (self : agents) (response : string) (w : world)
  : turn :=
  {| role := "assistant"; content := response;
     timestamp := now_isoformat self (S (clock_reads w)) |}.

(** The block of a combined response for one task and its output. *)
Definition block (t : task) (response : string) : string :=
  "**" ++ human_readable (agent t) ++ ":**" ++ LF ++ response.

(** The number of [%s] placeholders of a statement. *)
Fixpoint placeholders (query : string) : nat :=
  match query with
  | EmptyString => 0
  | String "%" (String "s" _ as rest) => S (placeholders rest)
  | String _ rest => placeholders rest
  end.

(** A user id without any of the wildcard characters of the cache's key
    patterns. *)
Definition glob_free (user_id : string) : Prop :=
  Forall (λ c, c ∉ ["*"; "?"; "["; "\"]%char) (list_ascii_of_string user_id).

(** The lines of a listing, one after the other. *)
Definition lines_text (lines : list string) : string :=
  foldr String.append EmptyString lines.

(** What the search handler puts after the lines when there are more than
    ten properties. *)
Definition overflow_note (n : nat) : string :=
  if (10 <? n)%nat
  then LF ++ "... and " ++ pretty (n - 10)%nat ++ " more properties"
  else EmptyString.

(** A text with its commas deleted. *)
Definition without_commas (s : string) : string :=
  string_of_list_ascii
    (filter (λ c, c ≠ ","%char) (list_ascii_of_string s)).

(** The part of a web summary for the result at position [i] (from 0),
    given as its title and its content. *)
Definition numbered_part (i : nat) (title content : string) : string :=
  pretty (S i) ++ ". " ++ title ++ ": " ++ substring 0 200 content ++ "...".

(** A field of a search result read as text: the string it holds, the
    default [N/A] when the key is absent, nothing otherwise. *)
Definition text_field (result : gmap string json) (key : string)
  : option string :=
  match default (JStr "N/A") (result !! key) with
  | JStr s => Some s
  | _ => None
  end.

(** * Example data *)

(** A double quote, and a quoted word, for writing JSON text. *)
Definition DQ : string := String "034"%char EmptyString.
Definition quoted (s : string) : string := DQ ++ s ++ DQ.

(** A reply that repeats an intent and invents one. *)
Definition demo_json : string :=
  "{" ++ quoted "in_scope" ++ ": true, "
  ++ quoted "intents" ++ ": [" ++ quoted "search_property" ++ ", "
  ++ quoted "search_property" ++ ", " ++ quoted "book_flight" ++ ", "
  ++ quoted "generate_report" ++ "], "
  ++ quoted "slots" ++ ": {" ++ quoted "location" ++ ": " ++ quoted "Mumbai"
  ++ ", " ++ quoted "num_rooms" ++ ": 2, " ++ quoted "max_price" ++ ": null}}".

Definition demo_reply : string :=
  "Here is the analysis: " ++ demo_json ++ " Let me know if you need more.".

Definition demo_slots : gmap string json :=
  {[ "location" := JStr "Mumbai"; "num_rooms" := JInt 2; "max_price" := JNull ]}.

Definition demo_parsed : gmap string json :=
  {[ "in_scope" := JBool true;
     "intents" := JArr [ JStr "search_property"; JStr "search_property";
                         JStr "book_flight"; JStr "generate_report" ];
     "slots" := JObj demo_slots ]}.

(** A reply whose intents hold a list, which cannot be hashed. *)
Definition nested_json : string :=
  "{" ++ quoted "intents" ++ ": [[" ++ quoted "search_property" ++ "]]}".

Definition nested_parsed : gmap string json :=
  {[ "intents" := JArr [ JArr [ JStr "search_property" ] ] ]}.

(** A reply whose slots are not an object. *)
Definition scalar_slots_json : string :=
  "{" ++ quoted "intents" ++ ": [" ++ quoted "search_property" ++ "], "
  ++ quoted "slots" ++ ": 5}".

Definition scalar_slots_parsed : gmap string json :=
  {[ "intents" := JArr [ JStr "search_property" ]; "slots" := JInt 5 ]}.

(** The decoder on the texts above; anything else is not JSON. *)
Definition demo_loads (s : string) : option (gmap string json) :=
  if bool_decide (s = demo_json) then Some demo_parsed
  else if bool_decide (s = nested_json) then Some nested_parsed
  else if bool_decide (s = scalar_slots_json) then Some scalar_slots_parsed
  else None.

(** A completion service that behaves in one given way. *)
Definition demo_service (outcome : http_outcome) : llm_service :=
  {| prompt_head := "You are a real estate query analyzer. Query: ";
     prompt_tail := " Now analyze this query and return ONLY the JSON:";
     requests_post := λ _, outcome;
     json_loads := demo_loads |}.

(** The body of a successful completion response carrying [text]. *)
Definition completion (text : string) : http_outcome :=
  Response 200
    (Some (JObj {[ "choices" :=
      JArr [ JObj {[ "message" :=
        JObj {[ "role" := JStr "assistant"; "content" := JStr text ]} ]} ] ]})).

(** A successful response whose [content] is [null]. *)
Definition null_completion : http_outcome :=
  Response 200
    (Some (JObj {[ "choices" :=
      JArr [ JObj {[ "message" :=
        JObj {[ "role" := JStr "assistant"; "content" := JNull ]} ]} ] ]})).

Definition demo_classification : classification :=
  {| in_scope := JBool true;
     intents := ["search_property"; "generate_report"];
     slots := JObj demo_slots |}.

(** Two property records, and collaborators that always answer. *)
Definition demo_rows : list json :=
  [ JObj {[ "property_id" := JStr "P1"; "location" := JStr "Mumbai" ]};
    JObj {[ "property_id" := JStr "P2"; "location" := JStr "Mumbai" ]} ].

Definition demo_agents : agents :=
  {| route := QueryRouter.route (demo_service (completion demo_reply));
     execute_query := λ _ _, Ok demo_rows;
     rows_encodable := λ _, true;
     render_property := λ _, Ok ("- a property" ++ LF);
     repr_other := λ _, "{...}";
     renovation := λ _ _, Ok "Renovation Cost Estimates";
     generate_report := λ _, Ok (JStr "reports/property_report.pdf");
     rag_answer := λ _ _, Ok ("Here is what I found.", ["P1"]);
     web_summary := λ _, "No recent market data found.";
     now_isoformat := λ n, "t" ++ pretty n |}.

(** A memory with one exchange in its log, no cache server, and a
    reachable database. *)
Definition demo_world : world :=
  {| user_id := "default_user";
     episodic := [ {| role := "user"; content := "hello"; timestamp := "t0" |};
                   {| role := "assistant"; content := "hi"; timestamp := "t1" |} ];
     redis_available := false;
     redis := ∅;
     shortterm := ∅;
     user_memory := ∅;
     db_reachable := true;
     column_text := λ _, Raise ProgrammingError;
     clock_reads := 2;
     reports := [] |}.

(** The same collaborators behind another router. *)
Definition with_route (r : string → res (string * list string * json))
    (a : agents) : agents :=
  {| route := r;
     execute_query := execute_query a;
     rows_encodable := rows_encodable a;
     render_property := render_property a;
     repr_other := repr_other a;
     renovation := renovation a;
     generate_report := generate_report a;
     rag_answer := rag_answer a;
     web_summary := web_summary a;
     now_isoformat := now_isoformat a |}.

(** The plan of the demo reply, and what running it returns. *)
Definition demo_tasks : list task :=
  [ {| agent := "search_property";
       params := {[ "location" := JStr "Mumbai"; "num_rooms" := JInt 2 ]} |};
    {| agent := "generate_report"; params := ∅ |} ].

Definition demo_listing : string :=
  "Found 2 properties:" ++ LF ++ LF ++ "- a property" ++ LF
  ++ "- a property" ++ LF.

Definition demo_report_reply : string :=
  "Report generated successfully! Saved to: reports/property_report.pdf".

Definition demo_combined : string :=
  LF ++ LF ++ "**Search Property:**" ++ LF ++ demo_listing
  ++ LF ++ LF ++ "---" ++ LF ++ LF
  ++ "**Generate Report:**" ++ LF ++ demo_report_reply.

(** The demo collaborators over a database without a matching row. *)
Definition demo_agents_no_match : agents :=
  {| route := route demo_agents;
     execute_query := λ _ _, Ok [];
     rows_encodable := rows_encodable demo_agents;
     render_property := render_property demo_agents;
     repr_other := repr_other demo_agents;
     renovation := renovation demo_agents;
     generate_report := generate_report demo_agents;
     rag_answer := rag_answer demo_agents;
     web_summary := web_summary demo_agents;
     now_isoformat := now_isoformat demo_agents |}.

(** The demo collaborators over a table with a date column, which
    [json.dumps] does not encode. *)
Definition demo_agents_dated : agents :=
  {| route := route demo_agents;
     execute_query := execute_query demo_agents;
     rows_encodable := λ _, false;
     render_property := render_property demo_agents;
     repr_other := repr_other demo_agents;
     renovation := renovation demo_agents;
     generate_report := generate_report demo_agents;
     rag_answer := rag_answer demo_agents;
     web_summary := web_summary demo_agents;
     now_isoformat := now_isoformat demo_agents |}.

(** The demo memory with the database out of reach. *)
Definition demo_world_offline : world :=
  {| user_id := "default_user"; episodic := []; redis_available := false;
     redis := ∅; shortterm := ∅; user_memory := ∅; db_reachable := false;
     column_text := λ _, Raise ProgrammingError;
     clock_reads := 0; reports := [] |}.

(** A router that takes one question for a report request and any other
    for a search. *)
Definition demo_two_turn_agents : agents :=
  with_route
    (λ q, if bool_decide (q = "Now make a report")
          then Ok ("simple-query", ["generate_report"], JNull)
          else Ok ("simple-query", ["search_property"], JObj demo_slots))
    demo_agents.

(** Web search collaborators: one that answers with two results, one
    without a key, one whose call fails, one that answers 500. *)
Definition demo_results : list json :=
  [ JObj {[ "title" := JStr "Mumbai rates"; "content" := JStr "Prices rose." ]};
    JObj {[ "title" := JStr "Delhi rates"; "content" := JStr "Prices fell." ]} ].

Definition demo_web (key : option string) (outcome : http_outcome)
  : web_service :=
  {| tavily_api_key := key;
     tavily_post := λ _, outcome;
     web_repr_other := λ _, "{...}" |}.

Definition demo_web_ok : web_service :=
  demo_web (Some "tvly-key")
    (Response 200 (Some (JObj {[ "results" := JArr demo_results ]}))).

(** An empty memory for a given user. *)
Definition fresh_world (uid : string) : world :=
  {| user_id := uid; episodic := []; redis_available := true; redis := ∅;
     shortterm := ∅; user_memory := ∅; db_reachable := true;
     column_text := λ _, Raise ProgrammingError;
     clock_reads := 0; reports := [] |}.

(** The same memory after a search that found [demo_rows]. *)
Definition demo_world_after_search : world :=
  set_shortterm
    {[ "session:default_user:last_search_results" := JArr demo_rows ]}
    demo_world.

(** The memory after the turn that searched and reported. *)
Definition demo_world_after_turn : world :=
  set_episodic
    (episodic demo_world
     ++ [ {| role := "user";
             content := "Find flats in Mumbai and make a report";
             timestamp := "t2" |};
          {| role := "assistant"; content := demo_combined;
             timestamp := "t3" |} ])
    4 (set_reports [JArr demo_rows] demo_world_after_search).

(** * Properties *)

(** ** The classifier's validation step *)

Section RouterFacts.
Import QueryRouter.

Lemma allowed_Some intent s :
  allowed intent = Some s → intent = JStr s ∧ s ∈ allowed_intents.
Proof.
  destruct intent; simpl; try discriminate.
  case_bool_decide; [|discriminate].
  intros [= <-]. done.
Qed.

Lemma allowed_in_enumeration s :
  s ∈ allowed_intents → s ∈ intent_enumeration.
Proof.
  unfold allowed_intents, intent_enumeration.
  rewrite !elem_of_union, !elem_of_singleton, !elem_of_cons.
  tauto.
Qed.

Lemma key_eq_str s t : Py.key_eq (JStr s) (JStr t) = bool_decide (s = t).
Proof. reflexivity. Qed.

Lemma set_contains_str seen s :
  Py.set_contains seen (JStr s) = true ↔ JStr s ∈ seen.
Proof.
  unfold Py.set_contains. rewrite existsb_exists. split.
  - intros (x & Hin & Heq). apply list_elem_of_In in Hin.
    destruct x; simpl in Heq; try discriminate.
    apply bool_decide_eq_true in Heq. by subst.
  - intros Hin. exists (JStr s). split; [by apply list_elem_of_In|].
    simpl. by apply bool_decide_eq_true.
Qed.

Lemma omap_allowed_app (l : list json) (x : json) :
  omap allowed (l ++ [x])%list =
  (omap allowed l ++ match allowed x with Some s => [s] | None => [] end)%list.
Proof. rewrite omap_app. simpl. by destruct (allowed x). Qed.

(** What the loop keeps is duplicate-free on the names that survive the
    allow-list, provided what it has kept so far is. *)
Lemma unique_loop_NoDup intents : ∀ seen unique_intents out,
  NoDup (omap allowed unique_intents) →
  (∀ s, s ∈ omap allowed unique_intents → JStr s ∈ seen) →
  unique_loop seen unique_intents intents = Ok out →
  NoDup (omap allowed out).
Proof.
  induction intents as [|intent rest IH]; intros seen uniq out Hnd Hseen; simpl.
  - by intros [= <-].
  - destruct (Py.hashable intent); [|discriminate].
    destruct (Py.set_contains seen intent) eqn:Hc.
    + by apply IH.
    + apply IH.
      * rewrite omap_allowed_app.
        destruct (allowed intent) as [s|] eqn:Ha;
          [|by rewrite app_nil_r].
        apply allowed_Some in Ha as [-> _].
        apply NoDup_app. split_and!; [done| |apply NoDup_singleton].
        intros x Hx Hx'. apply list_elem_of_singleton in Hx' as ->.
        apply Hseen, set_contains_str in Hx. congruence.
      * intros s. rewrite omap_allowed_app, elem_of_app.
        intros [Hs|Hs]; [right; by apply Hseen|].
        destruct (allowed intent) as [t|] eqn:Ha;
          [|by apply not_elem_of_nil in Hs].
        apply list_elem_of_singleton in Hs as ->.
        apply allowed_Some in Ha as [-> _]. left.
Qed.

Lemma omap_allowed_enumeration l :
  Forall (λ s, s ∈ intent_enumeration) (omap allowed l).
Proof.
  apply Forall_forall. intros s Hs.
  apply list_elem_of_omap in Hs as (x & _ & Hx).
  apply allowed_Some in Hx as [_ Hx]. by apply allowed_in_enumeration.
Qed.

Lemma default_intents_ok :
  NoDup ["general_query"] ∧
  Forall (λ s, s ∈ intent_enumeration) ["general_query"] ∧
  ["general_query"] ≠ ([] : list string).
Proof.
  split_and!; [apply NoDup_singleton| |done].
  apply Forall_singleton. unfold intent_enumeration. set_solver.
Qed.

Lemma validate_intents_ok parsed c :
  _validate_and_clean parsed = Ok c →
  NoDup (intents c) ∧
  Forall (λ s, s ∈ intent_enumeration) (intents c) ∧
  intents c ≠ [].
Proof.
  unfold _validate_and_clean.
  destruct (unique_loop [] [] (ensure_intents_list parsed)) as [u|e] eqn:Hu;
    simpl; [|discriminate].
  intros [= <-]. simpl.
  destruct (omap allowed u) as [|s l] eqn:Hv; [apply default_intents_ok|].
  rewrite <- Hv. split_and!.
  - eapply unique_loop_NoDup; [| |exact Hu]; simpl.
    + apply NoDup_nil_2.
    + intros s' Hs'. by apply not_elem_of_nil in Hs'.
  - apply omap_allowed_enumeration.
  - by rewrite Hv.
Qed.

Lemma filter_all {A : Type} (P : A → Prop) `{!∀ x, Decision (P x)}
    (l : list A) :
  (∀ x, P x) → filter P l = l.
Proof.
  intros HP. induction l as [|x l IH]; [done|].
  by rewrite filter_cons_True, IH.
Qed.

Lemma filter_dedup_first (P : string → Prop) `{!∀ x, Decision (P x)} l :
  dedup_first (filter P l) = filter P (dedup_first l).
Proof.
  induction l as [|x l IH]; [done|].
  rewrite filter_cons. simpl. destruct (decide (P x)) as [HP|HP].
  - simpl. rewrite filter_cons_True by done. f_equal.
    rewrite IH, !list_filter_filter. apply list_filter_iff.
    intros y. tauto.
  - rewrite filter_cons_False by done.
    rewrite IH, list_filter_filter. apply list_filter_iff.
    intros y. split; [|tauto]. intros Hy. split; [done|congruence].
Qed.

(** On a list of strings the loop computes [dedup_first], skipping what
    it has already seen. *)
Lemma unique_loop_strings (ss : list string) : ∀ sn unique_intents,
  unique_loop (JStr <$> sn) unique_intents (JStr <$> ss) =
  Ok (unique_intents
      ++ (JStr <$> dedup_first (filter (λ s, s ∉ sn) ss)))%list.
Proof.
  induction ss as [|s rest IH]; intros sn uniq; simpl.
  - by rewrite app_nil_r.
  - destruct (Py.set_contains (JStr <$> sn) (JStr s)) eqn:Hc.
    + apply set_contains_str, list_elem_of_fmap in Hc as (t & [= <-] & Ht).
      rewrite filter_cons_False by tauto. apply IH.
    + assert (s ∉ sn) as Hs.
      { intros Hs. apply (list_elem_of_fmap_2 JStr) in Hs.
        apply set_contains_str in Hs. congruence. }
      rewrite filter_cons_True by done. simpl.
      change (JStr s :: (JStr <$> sn)) with (JStr <$> (s :: sn)).
      rewrite IH, <- app_assoc. simpl.
      rewrite <- filter_dedup_first, list_filter_filter.
      rewrite (list_filter_iff (λ y, y ∉ s :: sn) (λ y, y ≠ s ∧ y ∉ sn)); [done|].
      intros y. rewrite not_elem_of_cons. tauto.
Qed.

Lemma omap_allowed_strings (ss : list string) :
  omap allowed (JStr <$> ss) = filter (λ s, s ∈ allowed_intents) ss.
Proof.
  induction ss as [|s ss IH]; [done|].
  rewrite fmap_cons, filter_cons, <- IH.
  change (omap allowed (JStr s :: (JStr <$> ss)))
    with (match allowed (JStr s) with
          | Some y => y :: omap allowed (JStr <$> ss)
          | None => omap allowed (JStr <$> ss)
          end).
  simpl. case_bool_decide; destruct (decide _); done.
Qed.

Lemma validate_first_occurrence parsed (ss : list string) :
  parsed !! "intents" = Some (JArr (JStr <$> ss)) →
  ∃ c, _validate_and_clean parsed = Ok c ∧ intents c = repaired_intents ss.
Proof.
  intros Hi. unfold _validate_and_clean, ensure_intents_list. rewrite Hi.
  rewrite (unique_loop_strings ss [] []
           : unique_loop [] [] (JStr <$> ss) = _). simpl. eexists. split; [done|]. simpl.
  rewrite omap_allowed_strings. unfold repaired_intents.
  rewrite (filter_all (λ s : string, s ∉ []))
    by (intros y; apply not_elem_of_nil).
  by destruct (filter _ (dedup_first ss)).
Qed.

Lemma extract_json_intents_ok svc text c :
  _extract_json svc text = Ok c →
  NoDup (intents c) ∧
  Forall (λ s, s ∈ intent_enumeration) (intents c) ∧
  intents c ≠ [].
Proof.
  unfold _extract_json.
  destruct ((_ =? -1) || (_ =? 0)).
  - intros [= <-]. apply default_intents_ok.
  - destruct (json_loads svc _) as [parsed|].
    + apply validate_intents_ok.
    + intros [= <-]. apply default_intents_ok.
Qed.

(** The step returns a classification whenever no list or dict sits
    among the decoded intents. *)
Lemma unique_loop_returns intents : ∀ seen unique_intents,
  Forall (λ v, Py.hashable v = true) intents →
  ∃ out, unique_loop seen unique_intents intents = Ok out.
Proof.
  induction intents as [|intent rest IH]; intros seen uniq Hh; simpl;
    [by eexists|].
  apply Forall_cons in Hh as [-> Hh].
  destruct (Py.set_contains seen intent); by apply IH.
Qed.

Lemma extract_json_returns svc text :
  (∀ parsed, json_loads svc (json_slice text) = Some parsed →
     Forall (λ v, Py.hashable v = true) (ensure_intents_list parsed)) →
  ∃ c, _extract_json svc text = Ok c.
Proof.
  intros Hh. unfold _extract_json. fold (json_slice text).
  destruct (_ || _); [by eexists|].
  destruct (json_loads svc (json_slice text)) as [parsed|] eqn:Hl;
    [|by eexists].
  unfold _validate_and_clean.
  destruct (unique_loop_returns _ [] [] (Hh parsed eq_refl)) as (u & ->).
  by eexists.
Qed.

(** What [route] can return: nothing for an out-of-scope query, one
    intent for a simple query, two or more for a complex one. *)
Lemma route_shape svc user_input query_type ints sl :
  route svc user_input = Ok (query_type, ints, sl) →
  (query_type = "out_of_scope" ∧ ints = [] ∧ sl = JObj ∅) ∨
  (query_type = "simple-query" ∧ length ints = 1%nat) ∨
  (query_type = "complex-query" ∧ (2 ≤ length ints)%nat).
Proof.
  unfold route.
  destruct (_call_llm svc _) as [[| | | |text| |]|]; simpl; try discriminate.
  destruct (_extract_json svc text) as [c|] eqn:Hc; simpl; [|discriminate].
  apply extract_json_intents_ok in Hc as (_ & _ & Hne).
  destruct (negb (Py.truthy (in_scope c))).
  - intros [= <- <- <-]. by left.
  - case_bool_decide as Hlen; intros [= <- <- <-]; right; [by left|right].
    split; [done|]. destruct (intents c) as [|? [|? ?]]; simpl in *; try done; lia.
Qed.

(** C1. For every raw completion text, the intents of the classification
    that the extract-and-validate step produces are duplicate-free, each
    is one of the six names of the closed enumeration, and there is at
    least one of them; when the decoded reply lists its intents as
    strings, they are that list with later duplicates and foreign names
    removed, or [general_query] alone when nothing remains. *)
Theorem extract_json_intents_valid (svc : llm_service) (text : string)
    (c : classification) :
  _extract_json svc text = Ok c →
  (NoDup (intents c) ∧
   Forall (λ s, s ∈ intent_enumeration) (intents c) ∧
   intents c ≠ []) ∧
  (∀ parsed (ss : list string),
     Py.find "{" text ≠ -1 → Py.rfind "}" text ≠ -1 →
     json_loads svc (json_slice text) = Some parsed →
     parsed !! "intents" = Some (JArr (JStr <$> ss)) →
     intents c = repaired_intents ss).
Proof.
  intros H. split; [by eapply extract_json_intents_ok|].
  intros parsed ss Hs He Hl Hi. revert H.
  unfold _extract_json. unfold json_slice in Hl.
  destruct (Z.eqb_spec (Py.find "{" text) (-1)) as [|_]; [done|].
  destruct (Z.eqb_spec (Py.rfind "}" text + 1) 0) as [|_]; [lia|].
  simpl. rewrite Hl.
  destruct (validate_first_occurrence _ _ Hi) as (c' & -> & Hc').
  by intros [= <-].
Qed.

Lemma extract_json_intents_valid_witness :
  _extract_json (demo_service (completion demo_reply)) demo_reply = Ok demo_classification ∧
  NoDup (intents demo_classification) ∧
  Forall (λ s, s ∈ intent_enumeration) (intents demo_classification) ∧
  intents demo_classification ≠ [].
Proof.
  assert (_extract_json (demo_service (completion demo_reply)) demo_reply
          = Ok demo_classification) as H by (vm_compute; reflexivity).
  split; [exact H|].
  exact (proj1 (extract_json_intents_valid _ _ _ H)).
Defined.

(** A reply without braces, or whose slice does not decode, yields the
    default classification. *)
Lemma extract_json_default svc text :
  Py.find "{" text = -1 ∨ Py.rfind "}" text = -1
  ∨ json_loads svc (json_slice text) = None →
  _extract_json svc text = Ok default_classification.
Proof.
  unfold _extract_json, json_slice. intros [H|[H|H]].
  - by rewrite H.
  - rewrite H. simpl. by rewrite orb_true_r.
  - rewrite H. by destruct (_ || _).
Qed.

(** The claim C2 as stated fails: a transport error and a non-2xx response
    both leave [route] as an exception. *)
Lemma route_raises_on_service_failure :
  route (demo_service PostRaises) "Find 2BHK in Mumbai under 50 lakh"
    = Raise RequestException ∧
  route (demo_service (Response 503 None)) "Find 2BHK in Mumbai under 50 lakh"
    = Raise HTTPError.
Proof. split; reflexivity. Qed.

(** A decodable reply can make [route] raise as well: a list among the
    intents is not hashable. *)
Example route_raises_on_nested_intents :
  route (demo_service (completion nested_json)) "Find 2BHK in Mumbai"
    = Raise TypeError.
Proof. vm_compute. reflexivity. Qed.

(** C2, amended. When the completion call hands back a reply text that has
    no brace pair or whose brace-delimited slice does not decode, [route]
    does not raise and returns the default classification as a simple
    query; an exception of the completion call itself (a transport error,
    an error status) is not absorbed and leaves [route] unchanged. *)
Theorem route_degrades_on_malformed_text (svc : llm_service)
    (user_input : string) :
  let prompt := _build_prompt svc user_input in
  (∀ text, _call_llm svc prompt = Ok (JStr text) →
     Py.find "{" text = -1 ∨ Py.rfind "}" text = -1
     ∨ json_loads svc (json_slice text) = None →
     route svc user_input = Ok ("simple-query", ["general_query"], JObj ∅)) ∧
  (∀ e, _call_llm svc prompt = Raise e → route svc user_input = Raise e) ∧
  (requests_post svc prompt = PostRaises →
     _call_llm svc prompt = Raise RequestException) ∧
  (∀ status body, requests_post svc prompt = Response status body →
     400 ≤ status < 600 → _call_llm svc prompt = Raise HTTPError).
Proof.
  intros prompt. split_and!.
  - intros text Hcall Hbad. unfold route. fold prompt. rewrite Hcall. simpl.
    by rewrite (extract_json_default _ _ Hbad).
  - intros e Hcall. unfold route. fold prompt. by rewrite Hcall.
  - intros Hpost. unfold _call_llm. by rewrite Hpost.
  - intros status body Hpost [Hlo Hhi]. unfold _call_llm. rewrite Hpost.
    destruct (Z.leb_spec 400 status); [|lia].
    destruct (Z.ltb_spec status 600); [done|lia].
Qed.

Lemma route_degrades_on_malformed_text_witness :
  route (demo_service (completion "Sorry, I cannot analyse this query."))
        "Find 2BHK in Mumbai"
    = Ok ("simple-query", ["general_query"], JObj ∅) ∧
  route (demo_service PostRaises) "Find 2BHK in Mumbai"
    = Raise RequestException.
Proof.
  split.
  - apply (proj1 (route_degrades_on_malformed_text _ _))
      with (text := "Sorry, I cannot analyse this query.").
    + reflexivity.
    + left. reflexivity.
  - apply (proj1 (proj2 (route_degrades_on_malformed_text _ _))).
    reflexivity.
Defined.

End RouterFacts.

(** ** The planner *)

Section PlannerFacts.
Import Planner.

Lemma agent_params_allow_list intent :
  default [] (agent_params !! intent) = allow_list intent.
Proof.
  unfold allow_list.
  repeat (case_bool_decide; [subst; reflexivity|]).
  unfold agent_params. simpl.
  by rewrite !lookup_insert_ne, lookup_empty by done.
Qed.

(** The comprehension over a dict never raises, and keeps exactly the
    relevant keys that hold a value other than [None]. *)
Lemma collect_params_dict (m : gmap string json) relevant_keys :
  ∀ params : gmap string json,
  (∀ k v, params !! k = Some v → m !! k = Some v ∧ v ≠ JNull) →
  ∃ out, collect_params (JObj m) relevant_keys params = Ok out ∧
    ∀ k v, out !! k = Some v ↔
      (m !! k = Some v ∧ v ≠ JNull) ∧
      (k ∈ relevant_keys ∨ is_Some (params !! k)).
Proof.
  induction relevant_keys as [|key rest IH]; intros params Hinv; simpl.
  - eexists. split; [done|]. intros k v. split.
    + intros Hk. split; [by apply Hinv|]. right. by eexists.
    + intros [[Hm _] [Hk|[v' Hk]]]; [by apply not_elem_of_nil in Hk|].
      apply Hinv in Hk as Hk'. destruct Hk' as [Hm' _]. congruence.
  - destruct (m !! key) as [x|] eqn:Hkey; simpl.
    + assert (x = JNull ∨ x ≠ JNull) as [->|Hx]
        by (destruct x; (by left) || (by right)).
      * destruct (IH params Hinv) as (out & -> & Hout).
        eexists. split; [done|]. intros k v. rewrite Hout, elem_of_cons.
        split; [tauto|]. intros [[Hm Hv] [[->|Hk]|Hk]]; [|tauto..].
        congruence.
      * destruct (IH (<[key := x]> params)) as (out & Hrun & Hout).
        { intros k v. rewrite lookup_insert. case_decide; [|apply Hinv].
          intros [= <-]. by subst. }
        exists out. split; [by destruct x|].
        intros k v. rewrite Hout, elem_of_cons, lookup_insert_is_Some.
        split; intros [HP H]; (split; [done|]).
        -- destruct H as [?|[->|[_ ?]]]; auto.
        -- destruct H as [[->|?]|?]; auto.
           destruct (decide (key = k)); auto.
    + destruct (IH params Hinv) as (out & -> & Hout).
      eexists. split; [done|]. intros k v. rewrite Hout, elem_of_cons.
      split; [tauto|]. intros [[Hm Hv] [[->|Hk]|Hk]]; [|tauto..].
      congruence.
Qed.

Lemma extract_relevant_params_dict intent (slots : gmap string json) :
  ∃ params, _extract_relevant_params intent (JObj slots) = Ok params ∧
    ∀ key value, params !! key = Some value ↔
      key ∈ allow_list intent ∧ slots !! key = Some value ∧ value ≠ JNull.
Proof.
  unfold _extract_relevant_params. rewrite agent_params_allow_list.
  destruct (collect_params_dict slots (allow_list intent) ∅) as (out & -> & H).
  { intros k v. by rewrite lookup_empty. }
  exists out. split; [done|]. intros key value. rewrite H, lookup_empty.
  split.
  - intros [? [?|[? ?]]]; [tauto|done].
  - tauto.
Qed.

Lemma plan_loop_spec slots intents : ∀ tasks out,
  plan_loop intents slots tasks = Ok out →
  ∃ new, out = (tasks ++ new)%list ∧ Forall2 (planned_for slots) intents new.
Proof.
  induction intents as [|intent rest IH]; intros tasks out; simpl.
  - intros [= <-]. exists []. by rewrite app_nil_r.
  - destruct (_extract_relevant_params intent slots) as [ps|] eqn:Hps; simpl;
      [|discriminate].
    intros Hout. apply IH in Hout as (new & -> & Hnew).
    exists ({| agent := intent; params := ps |} :: new).
    rewrite <- app_assoc. split; [done|]. by constructor.
Qed.

Lemma plan_loop_total (m : gmap string json) intents : ∀ tasks,
  ∃ out, plan_loop intents (JObj m) tasks = Ok out.
Proof.
  induction intents as [|intent rest IH]; intros tasks; simpl; [by eexists|].
  destruct (extract_relevant_params_dict intent m) as (ps & -> & _). simpl.
  apply IH.
Qed.

(** Whatever [plan] returns holds one task per intent, in order, except
    that a simple plan looks at the first intent only and an empty intent
    list gives the single default task. *)
Lemma plan_complex_spec intents slots tasks :
  intents ≠ [] →
  _plan_complex intents slots = Ok tasks →
  Forall2 (planned_for slots) intents tasks.
Proof.
  intros Hne. destruct intents as [|i rest]; [done|].
  unfold _plan_complex. intros H.
  apply plan_loop_spec in H as (new & -> & Hnew). done.
Qed.

Lemma plan_simple_spec intent rest slots tasks :
  _plan_simple (intent :: rest) slots = Ok tasks →
  Forall2 (planned_for slots) [intent] tasks.
Proof.
  simpl.
  destruct (_extract_relevant_params intent slots) as [ps|] eqn:Hps; simpl;
    [|discriminate].
  intros [= <-]. by repeat constructor.
Qed.

(** The tasks of any plan respect the allow-lists. *)
Lemma plan_tasks_allow_list query_type intents (slots : gmap string json) tasks :
  plan query_type intents (JObj slots) = Ok tasks →
  Forall (λ t, ∀ key value, params t !! key = Some value →
            key ∈ allow_list (agent t) ∧ slots !! key = Some value
            ∧ value ≠ JNull) tasks.
Proof.
  assert (∀ ints ts, Forall2 (planned_for (JObj slots)) ints ts →
    Forall (λ t, ∀ key value, params t !! key = Some value →
              key ∈ allow_list (agent t) ∧ slots !! key = Some value
              ∧ value ≠ JNull) ts) as Hall.
  { intros ints ts H. induction H as [|i t ints ts [Ha Hp] _ IH]; constructor;
      [|done].
    intros key value Hkv.
    destruct (extract_relevant_params_dict i slots) as (ps & Hps & Hchar).
    rewrite Hp in Hps. injection Hps as <-. rewrite Ha. by apply Hchar. }
  assert (Forall (λ t, ∀ key value, params t !! key = Some value →
              key ∈ allow_list (agent t) ∧ slots !! key = Some value
              ∧ value ≠ JNull) [ {| agent := "general_query"; params := ∅ |} ])
    as Hdefault.
  { constructor; [|done]. intros key value. simpl. by rewrite lookup_empty. }
  unfold plan. repeat case_bool_decide.
  - by intros [= <-].
  - destruct intents as [|i rest]; [by intros [= <-]|].
    intros Hplan. apply (Hall [i]). by eapply plan_simple_spec.
  - destruct intents as [|i rest]; [by intros [= <-]|].
    intros Hplan. apply (Hall (i :: rest)). by apply plan_complex_spec.
  - destruct intents as [|i rest]; [by intros [= <-]|].
    intros Hplan. apply (Hall [i]). by eapply plan_simple_spec.
Qed.

(** C4. For every intent and every slot mapping, the planner's projection
    returns params whose keys all lie in that intent's allow-list and
    whose values are never null: a key is kept exactly when it is on the
    allow-list and the slots hold a non-null value for it, which is the
    value kept.  The same holds of every task of every plan. *)
Theorem extract_relevant_params_allow_list (intent : string)
    (slots : gmap string json) :
  (∃ params, _extract_relevant_params intent (JObj slots) = Ok params ∧
     ∀ key value, params !! key = Some value ↔
       key ∈ allow_list intent ∧ slots !! key = Some value ∧ value ≠ JNull) ∧
  (∀ query_type intents tasks,
     plan query_type intents (JObj slots) = Ok tasks →
     Forall (λ t, ∀ key value, params t !! key = Some value →
               key ∈ allow_list (agent t) ∧ slots !! key = Some value
               ∧ value ≠ JNull) tasks).
Proof.
  split; [apply extract_relevant_params_dict|].
  intros query_type intents tasks. apply plan_tasks_allow_list.
Qed.

Lemma extract_relevant_params_allow_list_witness :
  (∃ params,
     _extract_relevant_params "save_preference" (JObj demo_slots) = Ok params ∧
     ∀ key value, params !! key = Some value ↔
       key ∈ allow_list "save_preference" ∧ demo_slots !! key = Some value
       ∧ value ≠ JNull) ∧
  plan "complex-query" ["search_property"; "generate_report"] (JObj demo_slots)
    = Ok [ {| agent := "search_property";
              params := {[ "location" := JStr "Mumbai"; "num_rooms" := JInt 2 ]} |};
           {| agent := "generate_report"; params := ∅ |} ].
Proof.
  split.
  - exact (proj1 (extract_relevant_params_allow_list "save_preference" demo_slots)).
  - vm_compute. reflexivity.
Defined.

(** C3. For every classifier output, [plan] returns the empty list when
    the query is out of scope; when it is simple or complex, any task
    list [plan] returns has as many tasks as there are intents, and
    [plan] does return one whenever the slots are a mapping. *)
Theorem plan_length_matches_intents (svc : llm_service) (user_input : string)
    (query_type : string) (ints : list string) (sl : json) :
  QueryRouter.route svc user_input = Ok (query_type, ints, sl) →
  (query_type = "out_of_scope" → plan query_type ints sl = Ok []) ∧
  (query_type = "simple-query" ∨ query_type = "complex-query" →
     (∀ tasks, plan query_type ints sl = Ok tasks →
        length tasks = length ints) ∧
     (∀ m, sl = JObj m →
        ∃ tasks, plan query_type ints sl = Ok tasks
                 ∧ length tasks = length ints)).
Proof.
  intros Hroute. apply route_shape in Hroute.
  assert (∀ tasks, query_type ≠ "out_of_scope" →
            plan query_type ints sl = Ok tasks → length tasks = length ints)
    as Hlen.
  { intros tasks Hq.
    destruct Hroute as [(-> & _)|[(-> & Hn)|(-> & Hn)]]; [done| |].
    - destruct ints as [|i [|? ?]]; simpl in Hn; try lia.
      unfold plan. simpl. intros H.
      apply (plan_simple_spec i [] sl tasks), Forall2_length in H.
      by rewrite <- H.
    - destruct ints as [|i rest]; simpl in Hn; [lia|].
      unfold plan. simpl. intros H.
      apply (plan_complex_spec (i :: rest) sl tasks) in H; [|done].
      apply Forall2_length in H. by rewrite <- H. }
  split.
  - intros ->. reflexivity.
  - intros Hq. assert (query_type ≠ "out_of_scope") as Hne
      by (destruct Hq as [->| ->]; done).
    split; [intros tasks; by apply Hlen|].
    intros m ->.
    assert (∃ tasks, plan query_type ints (JObj m) = Ok tasks) as [tasks Ht].
    { destruct Hroute as [(-> & _)|[(-> & Hn)|(-> & Hn)]]; [done| |].
      - destruct ints as [|i rest]; simpl in Hn; [lia|].
        unfold plan. simpl.
        destruct (extract_relevant_params_dict i m) as (ps & -> & _).
        by eexists.
      - destruct ints as [|i rest]; simpl in Hn; [lia|].
        unfold plan. simpl.
        change (∃ tasks, plan_loop (i :: rest) (JObj m) [] = Ok tasks).
        apply plan_loop_total. }
    exists tasks. split; [done|]. by apply Hlen.
Qed.

Lemma plan_length_matches_intents_witness :
  QueryRouter.route (demo_service (completion demo_reply))
    "Find 2BHK in Mumbai and generate a report"
    = Ok ("complex-query", ["search_property"; "generate_report"],
          JObj demo_slots) ∧
  ∃ tasks,
    plan "complex-query" ["search_property"; "generate_report"] (JObj demo_slots)
      = Ok tasks ∧ length tasks = 2%nat.
Proof.
  assert (QueryRouter.route (demo_service (completion demo_reply))
            "Find 2BHK in Mumbai and generate a report"
          = Ok ("complex-query", ["search_property"; "generate_report"],
                JObj demo_slots)) as H by (vm_compute; reflexivity).
  split; [exact H|].
  apply (proj2 (proj2 (plan_length_matches_intents _ _ _ _ _ H)
                  (or_intror eq_refl)) demo_slots eq_refl).
Defined.

(** Outside the classifier's outputs the count can differ: a simple plan
    keeps the first intent only. *)
Example plan_simple_keeps_first :
  plan "simple-query" ["search_property"; "generate_report"] (JObj ∅)
    = Ok [ {| agent := "search_property"; params := ∅ |} ].
Proof. vm_compute. reflexivity. Qed.

(** With slots that are not a mapping the projection raises. *)
Example plan_raises_on_scalar_slots :
  QueryRouter.route (demo_service (completion scalar_slots_json)) "Find flats"
    = Ok ("simple-query", ["search_property"], JInt 5) ∧
  plan "simple-query" ["search_property"] (JInt 5) = Raise TypeError.
Proof. split; vm_compute; reflexivity. Qed.

End PlannerFacts.

(** ** The query builder *)

Section QueryBuilderFacts.
Import StructuredAgent.

(** The claim C7 as stated fails: a key that is present with the value
    zero adds no condition to the query. *)
Lemma build_query_skips_zero :
  ({[ "max_price" := JInt 0 ]} : gmap string json) !! "max_price"
    = Some (JInt 0) ∧
  _build_query {[ "max_price" := JInt 0 ]}
    = ("SELECT * FROM properties WHERE 1=1 ORDER BY price ASC LIMIT 10", []).
Proof. split; reflexivity. Qed.

Lemma build_query_contributions filters :
  _build_query filters =
    ("SELECT * FROM properties WHERE 1=1"
       ++ String.concat EmptyString (fst <$> contributions filters)
       ++ " ORDER BY price ASC LIMIT 10",
     snd <$> contributions filters).
Proof.
  unfold _build_query, contributions, add_filter, filter_table. cbn [omap list_omap].
  destruct (Py.truthy (Py.dict_get filters "location"));
  destruct (Py.truthy (Py.dict_get filters "num_rooms"));
  destruct (Py.truthy (Py.dict_get filters "max_price"));
  destruct (Py.truthy (Py.dict_get filters "min_price"));
  destruct (Py.truthy (Py.dict_get filters "property_size_sqft"));
  reflexivity.
Qed.

Lemma filter_table_cond_key key key' cond wrap wrap' :
  (key, cond, wrap) ∈ filter_table → (key', cond, wrap') ∈ filter_table →
  key = key'.
Proof.
  unfold filter_table. rewrite !elem_of_cons, !elem_of_nil.
  intros [H|[H|[H|[H|[H|[]]]]]] [H'|[H'|[H'|[H'|[H'|[]]]]]];
    simplify_eq; reflexivity.
Qed.

(** C7, amended. For every filter mapping, the built query is the fixed
    head, the conditions of exactly those of the five keys whose value is
    true in Python's sense (present, and not null, zero or empty), in the
    table's order, and the fixed tail, with the bound parameters in the
    same order; a key that is absent or holds a false value contributes
    nothing. *)
Theorem build_query_truthy_filters (filters : gmap string json) :
  _build_query filters =
    ("SELECT * FROM properties WHERE 1=1"
       ++ String.concat EmptyString (fst <$> contributions filters)
       ++ " ORDER BY price ASC LIMIT 10",
     snd <$> contributions filters) ∧
  ∀ key cond wrap, (key, cond, wrap) ∈ filter_table →
    (Py.truthy (Py.dict_get filters key) = true →
       (cond, wrap (Py.dict_get filters key)) ∈ contributions filters) ∧
    (Py.truthy (Py.dict_get filters key) = false →
       ∀ p, (cond, p) ∉ contributions filters).
Proof.
  split; [apply build_query_contributions|].
  intros key cond wrap Hin. split.
  - intros Ht. unfold contributions. apply list_elem_of_omap.
    exists (key, cond, wrap). split; [done|]. by rewrite Ht.
  - intros Hf p Hp. unfold contributions in Hp.
    apply list_elem_of_omap in Hp as ([[key' cond'] wrap'] & Hin' & Hsome).
    destruct (Py.truthy (Py.dict_get filters key')) eqn:Ht'; [|done].
    injection Hsome as <- <-.
    rewrite (filter_table_cond_key _ _ _ _ _ Hin Hin') in Hf. congruence.
Qed.

Lemma build_query_truthy_filters_witness :
  _build_query {[ "location" := JStr "Mumbai"; "max_price" := JInt 5000000;
                  "num_rooms" := JInt 0 ]}
    = ("SELECT * FROM properties WHERE 1=1 AND location ILIKE %s AND price <= %s ORDER BY price ASC LIMIT 10",
       [LikePattern (JStr "Mumbai"); Plain (JInt 5000000)]) ∧
  (" AND price <= %s", Plain (JInt 5000000))
    ∈ contributions {[ "location" := JStr "Mumbai"; "max_price" := JInt 5000000;
                       "num_rooms" := JInt 0 ]}.
Proof.
  split; [reflexivity|].
  apply (proj1 (proj2 (build_query_truthy_filters
                  {[ "location" := JStr "Mumbai"; "max_price" := JInt 5000000;
                     "num_rooms" := JInt 0 ]})
                "max_price" " AND price <= %s" Plain
                ltac:(unfold filter_table; do 2 right; left)));
  reflexivity.
Defined.

End QueryBuilderFacts.

(** ** The episodic log *)

Section EpisodicFacts.
Import Memory.

(** The claim C10 as stated fails: with [last_n = 0] the whole history
    comes back, not zero turns. *)
Lemma history_last_zero_is_everything :
  get_conversation_history (Some 0) demo_world = episodic demo_world ∧
  length (get_conversation_history (Some 0) demo_world) = 2%nat.
Proof. split; reflexivity. Qed.

Lemma list_slice_from_neg {A : Type} (n : nat) (l : list A) :
  (0 < n)%nat → list_slice_from (- Z.of_nat n) l = most_recent n l.
Proof.
  intros Hn. unfold list_slice_from, most_recent.
  destruct (Z.ltb_spec (- Z.of_nat n) 0); [|lia].
  f_equal. lia.
Qed.

(** C10, amended. For every episodic log and every natural number [n]
    other than zero, reading the history with [last_n = n] returns
    exactly the most recent [n] turns (all of them when there are fewer),
    oldest first; with [last_n = 0], as with [last_n] omitted, it returns
    the entire history. *)
Theorem conversation_history_last_n (w : world) (n : nat) :
  ((0 < n)%nat →
     get_conversation_history (Some (Z.of_nat n)) w = most_recent n (episodic w)
     ∧ length (most_recent n (episodic w)) = (n `min` length (episodic w))%nat
     ∧ ∃ older, episodic w = (older ++ most_recent n (episodic w))%list) ∧
  get_conversation_history (Some 0) w = episodic w ∧
  get_conversation_history None w = episodic w.
Proof.
  split_and!; [|done..].
  intros Hn. split_and!.
  - unfold get_conversation_history.
    destruct (Z.eqb_spec (Z.of_nat n) 0); [lia|]. simpl.
    by apply list_slice_from_neg.
  - unfold most_recent. rewrite length_drop. lia.
  - exists (take (length (episodic w) - n) (episodic w)).
    unfold most_recent. by rewrite take_drop.
Qed.

Lemma conversation_history_last_n_witness :
  get_conversation_history (Some (Z.of_nat 1)) demo_world
    = [ {| role := "assistant"; content := "hi"; timestamp := "t1" |} ].
Proof.
  rewrite (proj1 (proj1 (conversation_history_last_n demo_world 1)
                    ltac:(lia))).
  reflexivity.
Defined.

End EpisodicFacts.

(** ** The preference handler *)

Section PreferenceFacts.
Import RealEstateChatbot.




(** One write, for a key of the handler. *)
Lemma save_preference_ok key value w t :
  db_reachable w = true → storable (user_id w) → storable key →
  Memory.memory_value w value = Ok t →
  Memory.save_preference key value w
    = (Ok tt, set_user_memory (<[(user_id w, key) := t]> (user_memory w)) w).
Proof.
  intros Hdb [Hn Hl] [Hkn Hkl] Hv.
  unfold Memory.save_preference, Memory.insert_row, Memory.bind_str,
    Memory.fits_varchar_100.
  rewrite Hdb, Hn, Hkn. simpl. rewrite Hv. simpl.
  destruct (Nat.leb_spec (String.length (user_id w)) 100); [|lia].
  destruct (Nat.leb_spec (String.length key) 100); [|lia]. done.
Qed.


Lemma memory_value_set_user_memory m w value :
  Memory.memory_value (set_user_memory m w) value = Memory.memory_value w value.
Proof. by destruct value. Qed.





(** A location that is not a text: a number is kept as its numeral, and a
    dict is refused by the driver after the budget has been written. *)
Example save_preference_location_number :
  _handle_save_preference demo_agents {[ "location" := JInt 400001 ]}
      "remember my area" demo_world
    = (Ok preferences_saved,
       set_user_memory
         {[ ("default_user", "preferred_location") := JStr "400001" ]}
         demo_world).
Proof. vm_compute. reflexivity. Qed.

Example save_preference_location_dict :
  _handle_save_preference demo_agents
      {[ "max_price" := JInt 5000000;
         "location" := JObj {[ "city" := JStr "Mumbai" ]} ]}
      "remember my budget" demo_world
    = (Raise ProgrammingError,
       set_user_memory {[ ("default_user", "budget") := JStr "5000000" ]}
         demo_world).
Proof. vm_compute. reflexivity. Qed.

End PreferenceFacts.

(** ** Search results and the report handler *)

Section ReportFacts.
Import RealEstateChatbot.

Lemma set_context_last_search_results value w :
  last_search_results (Memory.set_context "last_search_results" value w).2
    = value.
Proof.
  unfold last_search_results, Memory.set_context, Memory.get_context,
    modify, gets.
  destruct w as [uid ep [] rd st um db ct cr rp]; simpl;
    unfold Memory.full_key; simpl; by rewrite lookup_insert_eq.
Qed.

(** Storing the rows of a search: it fails, before anything is stored,
    only with the cache server and rows that cannot be encoded. *)
Lemma set_context_object_returns encodable key value w w' :
  Memory.set_context_object encodable key value w = (Ok tt, w') →
  w' = (Memory.set_context key value w).2.
Proof.
  unfold Memory.set_context_object.
  destruct (redis_available w && negb encodable); [discriminate|].
  unfold Memory.set_context, modify. by intros [= <-].
Qed.

Lemma set_context_object_stores encodable key value w :
  redis_available w = false ∨ encodable = true →
  Memory.set_context_object encodable key value w
    = (Ok tt, (Memory.set_context key value w).2).
Proof.
  unfold Memory.set_context_object.
  intros [->| ->]; [done|]. by rewrite andb_false_r.
Qed.

Lemma set_context_object_cases encodable key value w :
  Memory.set_context_object encodable key value w = (Raise TypeError, w) ∨
  Memory.set_context_object encodable key value w
    = (Ok tt, (Memory.set_context key value w).2).
Proof.
  unfold Memory.set_context_object.
  destruct (redis_available w && negb encodable); [by left|by right].
Qed.

Lemma handle_search_stores self filters w text w' props :
  _handle_search self filters w = (Ok text, w') →
  search_properties self filters = Ok props → props ≠ [] →
  last_search_results w' = JArr props ∧ reports w' = reports w.
Proof.
  unfold _handle_search. intros Hrun Hfound Hne. revert Hrun.
  unfold mbind at 1, M_bind, lift. rewrite Hfound.
  destruct props as [|p props]; [done|].
  unfold mbind, M_bind.
  destruct (render_listing _ _ _) as [listing|e]; [|discriminate].
  destruct (Memory.set_context_object _ _ _ w) as [[[]|e] w1] eqn:Hset;
    [|discriminate].
  apply set_context_object_returns in Hset as ->.
  intros [= _ <-]. split; [apply set_context_last_search_results|].
  unfold Memory.set_context, modify. simpl. by destruct (redis_available w).
Qed.

Lemma handle_report_without_results self slots w :
  Py.truthy (last_search_results w) = false →
  _handle_report self slots w = (Ok search_first, w).
Proof.
  unfold _handle_report, last_search_results, Memory.get_context, gets,
    mbind, M_bind. simpl. by intros ->.
Qed.

Lemma handle_report_with_results self slots w props :
  last_search_results w = JArr props → props ≠ [] →
  _handle_report self slots w =
    (match generate_report self (JArr (take 10 props)) with
     | Ok pdf_path =>
         Ok ("Report generated successfully! Saved to: " ++ str self pdf_path)
     | Raise e => Raise e
     end,
     set_reports (reports w ++ [JArr (take 10 props)]) w).
Proof.
  unfold _handle_report, last_search_results, Memory.get_context, gets,
    mbind, M_bind, lift, modify. simpl. intros -> Hne.
  destruct props as [|p props]; [done|]. simpl.
  by destruct (generate_report self _).
Qed.

(** *** What the handlers leave alone *)

Lemma same_log_refl w : same_log w w.
Proof. by split. Qed.

Lemma same_log_trans w1 w2 w3 :
  same_log w1 w2 → same_log w2 w3 → same_log w1 w3.
Proof. intros [? ?] [? ?]. split; congruence. Qed.

Lemma same_session_refl w : same_session w w.
Proof. by repeat split. Qed.

Lemma same_session_results w w' :
  same_session w w' → last_search_results w' = last_search_results w.
Proof.
  intros (Hu & Ha & Hr & Hs).
  unfold last_search_results, Memory.get_context, gets, Memory.full_key.
  simpl. by rewrite Hu, Ha, Hr, Hs.
Qed.

Lemma handle_search_same_log self slots w :
  same_log w (_handle_search self slots w).2.
Proof.
  unfold _handle_search, mbind, M_bind, lift.
  destruct (search_properties self slots) as [[|p props]|e];
    try apply same_log_refl.
  destruct (render_listing self _ _); [|apply same_log_refl].
  destruct (set_context_object_cases (rows_encodable self (p :: props))
              "last_search_results" (JArr (p :: props)) w) as [-> | ->];
    [apply same_log_refl|].
  unfold Memory.set_context, modify. cbn [snd].
  by destruct (redis_available w).
Qed.

Lemma handle_report_same self slots w :
  same_log w (_handle_report self slots w).2 ∧
  same_session w (_handle_report self slots w).2.
Proof.
  unfold _handle_report, Memory.get_context, gets, mbind, M_bind, lift, modify.
  simpl.
  destruct (negb (Py.truthy _)); simpl;
    [split; [apply same_log_refl|apply same_session_refl]|].
  destruct (first_ten _) as [ps|e]; simpl;
    [|split; [apply same_log_refl|apply same_session_refl]].
  destruct (negb (Py.truthy ps)); simpl;
    [split; [apply same_log_refl|apply same_session_refl]|].
  destruct (generate_report self ps); simpl; by repeat split.
Qed.

Lemma save_preference_same key value w :
  same_log w (Memory.save_preference key value w).2 ∧
  same_session w (Memory.save_preference key value w).2.
Proof.
  unfold Memory.save_preference.
  destruct (db_reachable w); [destruct (Memory.insert_row w key value)|];
    by repeat split.
Qed.

Lemma handle_save_preference_same self slots user_input w :
  same_log w (_handle_save_preference self slots user_input w).2 ∧
  same_session w (_handle_save_preference self slots user_input w).2.
Proof.
  unfold _handle_save_preference, mbind, M_bind, mret, M_ret.
  destruct (Py.truthy (Py.dict_get slots "max_price"));
  destruct (Py.truthy (Py.dict_get slots "location"));
  destruct (Py.truthy (Py.dict_get slots "num_rooms"));
  repeat match goal with
         | |- context [Memory.save_preference ?k ?v ?w0] =>
             let H := fresh "H" in
             pose proof (save_preference_same k v w0) as H;
             destruct (Memory.save_preference k v w0) as [[[]|?] ?];
             cbn [snd] in H
         end;
  cbn [snd]; unfold same_log, same_session in *;
  intuition congruence.
Qed.

Lemma handle_general_query_same self user_input ps w :
  (_handle_general_query self user_input ps w).2 = w.
Proof.
  unfold _handle_general_query, mbind, M_bind, lift.
  destruct (rag_answer self _ _) as [[answer [|src srcs]]|e]; reflexivity.
Qed.

(** No handler touches the conversation log; only the search handler
    writes to the session memory. *)
Lemma execute_task_same self t user_input w :
  same_log w (_execute_task self t user_input w).2 ∧
  (agent t ≠ "search_property" →
   same_session w (_execute_task self t user_input w).2).
Proof.
  unfold _execute_task.
  case_bool_decide as H1;
    [split; [apply handle_search_same_log|done]|].
  case_bool_decide as H2;
    [split; [apply same_log_refl|intros _; apply same_session_refl]|].
  case_bool_decide as H3;
    [split; [apply handle_report_same|intros _; apply handle_report_same]|].
  case_bool_decide as H4;
    [split; [apply handle_save_preference_same
            |intros _; apply handle_save_preference_same]|].
  case_bool_decide as H5;
    [split; [apply same_log_refl|intros _; apply same_session_refl]|].
  case_bool_decide as H6;
    [rewrite handle_general_query_same;
     split; [apply same_log_refl|intros _; apply same_session_refl]|].
  split; [apply same_log_refl|intros _; apply same_session_refl].
Qed.

(** C6. For every memory state: with nothing stored under
    [last_search_results] (the key absent, or an empty list) the report
    handler returns the search-first message and leaves the state as it
    was, so that the report builder is not called; with a non-empty list
    stored, it calls the builder once, on the first ten stored results at
    most, and returns the success message with the path the builder
    returns.  A search that finds properties stores all of them under
    that key, and no task other than a search disturbs them. *)
Theorem report_uses_stored_search (self : agents) (slots : gmap string json)
    (w : world) :
  (Py.truthy (last_search_results w) = false →
     _handle_report self slots w = (Ok search_first, w)) ∧
  (∀ props, last_search_results w = JArr props → props ≠ [] →
     _handle_report self slots w =
       (match generate_report self (JArr (take 10 props)) with
        | Ok pdf_path =>
            Ok ("Report generated successfully! Saved to: "
                ++ str self pdf_path)
        | Raise e => Raise e
        end,
        set_reports (reports w ++ [JArr (take 10 props)]) w)) ∧
  (∀ filters text w' props,
     _handle_search self filters w = (Ok text, w') →
     search_properties self filters = Ok props → props ≠ [] →
     last_search_results w' = JArr props ∧ reports w' = reports w) ∧
  (∀ t user_input, agent t ≠ "search_property" →
     last_search_results (_execute_task self t user_input w).2
       = last_search_results w).
Proof.
  split_and!.
  - apply handle_report_without_results.
  - apply handle_report_with_results.
  - intros filters text w' props. apply handle_search_stores.
  - intros t user_input Ht. apply same_session_results.
    by apply execute_task_same.
Qed.

Lemma report_uses_stored_search_witness :
  _handle_report demo_agents ∅ demo_world = (Ok search_first, demo_world) ∧
  (_handle_search demo_agents {[ "location" := JStr "Mumbai" ]} demo_world).2
    = demo_world_after_search ∧
  _handle_report demo_agents ∅ demo_world_after_search
    = (Ok "Report generated successfully! Saved to: reports/property_report.pdf",
       set_reports [JArr demo_rows] demo_world_after_search).
Proof.
  split_and!.
  - apply (proj1 (report_uses_stored_search demo_agents ∅ demo_world)).
    reflexivity.
  - vm_compute. reflexivity.
  - rewrite (proj1 (proj2 (report_uses_stored_search demo_agents ∅
                             demo_world_after_search))
               demo_rows eq_refl ltac:(discriminate)).
    reflexivity.
Defined.

End ReportFacts.

(** ** The dispatcher *)

Section DispatcherFacts.
Import RealEstateChatbot.

Lemma labelled_block t response : labelled t response = block t response.
Proof. reflexivity. Qed.


Lemma execute_loop_runs self user_input tasks : ∀ acc w out w',
  execute_loop self tasks user_input acc w = (Ok out, w') ↔
  ∃ responses, runs self user_input tasks w responses w' ∧
               out = (acc ++ zip_with block tasks responses)%list.
Proof.
  induction tasks as [|t ts IH]; intros acc w out w'; simpl.
  - split.
    + intros [= <- <-]. exists []. split; [constructor|by rewrite app_nil_r].
    + intros (rs & Hruns & ->). inversion Hruns; subst.
      by rewrite app_nil_r.
  - unfold mbind, M_bind.
    destruct (_execute_task self t user_input w) as [[r|e] w1] eqn:Ht.
    + rewrite IH. split.
      * intros (rs & Hruns & ->). exists (r :: rs).
        split; [by econstructor|]. by rewrite <- app_assoc.
      * intros (rs & Hruns & ->). inversion Hruns; subst.
        match goal with
        | H : _execute_task self t user_input w = _ |- _ =>
            rewrite Ht in H; injection H as <- <-
        end.
        eexists. split; [done|]. by rewrite <- app_assoc.
    + split; [discriminate|].
      intros (rs & Hruns & _). inversion Hruns; subst. congruence.
Qed.

Lemma runs_same_log self user_input tasks w responses w' :
  runs self user_input tasks w responses w' → same_log w w'.
Proof.
  induction 1 as [|t ts w r w1 rs w2 Ht _ IH]; [apply same_log_refl|].
  eapply same_log_trans; [|exact IH].
  pose proof (proj1 (execute_task_same self t user_input w)) as H.
  by rewrite Ht in H.
Qed.



(** The labels of the six intents. *)
Example human_readable_names :
  human_readable <$> intent_enumeration
    = [ "Search Property"; "Estimate Renovation"; "Generate Report";
        "Save Preference"; "Web Research"; "General Query" ].
Proof. reflexivity. Qed.

(** *** The conversation log across a turn *)

Lemma execute_loop_same_log self user_input tasks : ∀ acc w,
  same_log w (execute_loop self tasks user_input acc w).2.
Proof.
  induction tasks as [|t ts IH]; intros acc w; simpl;
    [apply same_log_refl|].
  unfold mbind, M_bind.
  pose proof (proj1 (execute_task_same self t user_input w)) as Ht.
  destruct (_execute_task self t user_input w) as [[r|e] w1]; [|exact Ht].
  eapply same_log_trans; [exact Ht|apply IH].
Qed.

Lemma dispatch_same_log self query_type tasks user_input w :
  same_log w (dispatch self query_type tasks user_input w).2.
Proof.
  unfold dispatch. repeat case_bool_decide; try apply same_log_refl.
  - destruct tasks as [|t ts]; [apply same_log_refl|].
    apply execute_task_same.
  - unfold _execute_complex_tasks, mbind, M_bind.
    pose proof (execute_loop_same_log self user_input tasks [] w) as Hl.
    by destruct (execute_loop self tasks user_input [] w) as [[out|e] w1].
Qed.

(** A turn that fails has still recorded the question, and nothing else. *)
Lemma chat_failure_keeps_question self user_input w e w' :
  chat self user_input w = (Raise e, w') →
  episodic w' = (episodic w ++ [user_turn self user_input w])%list.
Proof.
  unfold chat, Memory.add_message, modify, mbind, M_bind, lift.
  destruct (route self user_input) as [[[query_type ints] sl]|e1];
    [|by intros [= _ <-]].
  destruct (Planner.plan query_type ints sl) as [tasks|e2];
    [|by intros [= _ <-]].
  match goal with
  | |- context [dispatch self query_type tasks user_input ?w1] =>
      pose proof (dispatch_same_log self query_type tasks user_input w1)
        as [Hep _];
      destruct (dispatch self query_type tasks user_input w1) as [[r|e3] w2]
  end; [discriminate|].
  intros [= _ <-]. exact Hep.
Qed.

(** C9. Every turn that returns a response has appended exactly two
    entries to the episodic log, whatever branch the dispatcher took: the
    user's input first, then the response, and the entries that were
    there before are all still there, in place. *)
Theorem chat_appends_two_turns (self : agents) (user_input : string)
    (w : world) (response : string) (w' : world) :
  chat self user_input w = (Ok response, w') →
  episodic w'
    = (episodic w
       ++ [user_turn self user_input w; assistant_turn self response w])%list.
Proof.
  unfold chat, Memory.add_message, modify, mbind, M_bind, lift.
  destruct (route self user_input) as [[[query_type ints] sl]|e1];
    [|discriminate].
  destruct (Planner.plan query_type ints sl) as [tasks|e2]; [|discriminate].
  match goal with
  | |- context [dispatch self query_type tasks user_input ?w1] =>
      pose proof (dispatch_same_log self query_type tasks user_input w1)
        as [Hep Hclock];
      destruct (dispatch self query_type tasks user_input w1) as [[r|e3] w2]
  end; [|discriminate].
  intros [= <- <-]. simpl in *. rewrite Hep, Hclock, <- app_assoc. reflexivity.
Qed.

Lemma chat_appends_two_turns_witness :
  chat demo_agents "Find flats in Mumbai and make a report" demo_world
    = (Ok demo_combined, demo_world_after_turn) ∧
  episodic demo_world_after_turn
    = (episodic demo_world
       ++ [ user_turn demo_agents "Find flats in Mumbai and make a report"
              demo_world;
            assistant_turn demo_agents demo_combined demo_world ])%list.
Proof.
  assert (chat demo_agents "Find flats in Mumbai and make a report" demo_world
          = (Ok demo_combined, demo_world_after_turn)) as H
    by (vm_compute; reflexivity).
  split; [exact H|].
  exact (chat_appends_two_turns _ _ _ _ _ H).
Defined.

(** The other three branches, each on a router that sends the turn there. *)
Example chat_out_of_scope_branch :
  (chat (with_route (λ _, Ok ("out_of_scope", [], JObj ∅)) demo_agents)
        "Who is the president?" demo_world).1 = Ok refusal.
Proof. reflexivity. Qed.

Example chat_simple_branch :
  (chat (with_route (λ _, Ok ("simple-query", ["web_research"], JObj ∅))
                    demo_agents)
        "What are current market rates in Delhi?" demo_world).1
    = Ok "No recent market data found.".
Proof. reflexivity. Qed.

Example chat_unknown_type_branch :
  (chat (with_route (λ _, Ok ("chit-chat", ["general_query"], JObj ∅))
                    demo_agents)
        "hello" demo_world).1 = Ok unknown_type_reply.
Proof. reflexivity. Qed.

(** A turn whose classifier call fails records the question only. *)
Example chat_unreachable_classifier :
  chat (with_router (demo_service PostRaises) demo_agents) "Find flats"
       demo_world
    = (Raise RequestException,
       set_episodic (episodic demo_world
                     ++ [user_turn demo_agents "Find flats" demo_world])
                    3 demo_world).
Proof. reflexivity. Qed.

End DispatcherFacts.

(** * Further properties of the code *)

(** ** More on the router *)

Section RouterSliceFacts.
Import QueryRouter.

Lemma find_from_app_absent c s1 s2 i :
  0 ≤ i → Py.find_from c s1 i = -1 →
  Py.find_from c (s1 ++ s2) i = Py.find_from c s2 (i + Z.of_nat (String.length s1)).
Proof.
  revert i. induction s1 as [|a r IH]; intros i Hi; simpl.
  - intros _. f_equal. lia.
  - destruct (Ascii.eqb a c); [lia|].
    intros H. rewrite IH by (lia || done). f_equal. lia.
Qed.

Lemma rfind_from_app_absent c s1 s2 i :
  Py.rfind_from c s2 (i + Z.of_nat (String.length s1)) = -1 →
  Py.rfind_from c (s1 ++ s2) i = Py.rfind_from c s1 i.
Proof.
  revert i. induction s1 as [|a r IH]; intros i; simpl.
  - by rewrite Z.add_0_r.
  - intros H. rewrite IH; [done|].
    rewrite <- H. f_equal. lia.
Qed.

Lemma rfind_from_app_present c s1 s2 i :
  Py.rfind_from c s2 (i + Z.of_nat (String.length s1)) ≠ -1 →
  Py.rfind_from c (s1 ++ s2) i
    = Py.rfind_from c s2 (i + Z.of_nat (String.length s1)).
Proof.
  revert i. induction s1 as [|a r IH]; intros i; simpl.
  - by rewrite Z.add_0_r.
  - intros H.
    assert (i + 1 + Z.of_nat (String.length r)
            = i + Z.pos (Pos.of_succ_nat (String.length r))) as E by lia.
    rewrite IH; rewrite E; [|done].
    by destruct (Z.eqb_spec (Py.rfind_from c s2
      (i + Z.pos (Pos.of_succ_nat (String.length r)))) (-1)).
Qed.

Lemma substring_head s2 s3 :
  substring 0 (String.length s2) (s2 ++ s3) = s2.
Proof.
  induction s2 as [|b t IHt]; simpl; [by destruct s3|]. by rewrite IHt.
Qed.

Lemma substring_middle s1 s2 s3 :
  substring (String.length s1) (String.length s2) (s1 ++ s2 ++ s3) = s2.
Proof.
  induction s1 as [|a r IH]; [exact (substring_head s2 s3)|exact IH].
Qed.

Lemma rfind_from_absent_shift c s : ∀ i j,
  0 ≤ i → 0 ≤ j → Py.rfind_from c s i = -1 → Py.rfind_from c s j = -1.
Proof.
  induction s as [|a r IH]; intros i j Hi Hj; simpl; [done|].
  destruct (Z.eqb_spec (Py.rfind_from c r (i + 1)) (-1)) as [E|E]; [|done].
  rewrite (IH (i + 1) (j + 1)) by (lia || done). simpl.
  destruct (Ascii.eqb a c); [lia|done].
Qed.

Lemma length_app_string s1 s2 :
  String.length (s1 ++ s2) = (String.length s1 + String.length s2)%nat.
Proof. induction s1 as [|a r IH]; simpl; [done|by rewrite IH]. Qed.

Lemma string_app_assoc s1 s2 s3 : (s1 ++ s2) ++ s3 = s1 ++ s2 ++ s3.
Proof.
  induction s1 as [|a r IH]; [done|].
  change (String a ((r ++ s2) ++ s3) = String a (r ++ s2 ++ s3)).
  by rewrite IH.
Qed.

Lemma json_slice_chatter pre body post :
  Py.find "{"%char pre = -1 → Py.rfind "}"%char post = -1 →
  Py.find "{"%char (pre ++ "{" ++ body ++ "}" ++ post)
    = Z.of_nat (String.length pre) ∧
  Py.rfind "}"%char (pre ++ "{" ++ body ++ "}" ++ post)
    = Z.of_nat (String.length pre + 1 + String.length body) ∧
  json_slice (pre ++ "{" ++ body ++ "}" ++ post) = "{" ++ body ++ "}".
Proof.
  intros Hpre Hpost.
  assert (Py.find "{"%char (pre ++ "{" ++ body ++ "}" ++ post)
          = Z.of_nat (String.length pre)) as Hf.
  { unfold Py.find in *. rewrite find_from_app_absent by done. reflexivity. }
  assert (Py.rfind "}"%char (pre ++ "{" ++ body ++ "}" ++ post)
          = Z.of_nat (String.length pre + 1 + String.length body)) as Hr.
  { unfold Py.rfind in *.
    replace (pre ++ "{" ++ body ++ "}" ++ post)
      with ((pre ++ "{" ++ body) ++ "}" ++ post)
      by (by rewrite !string_app_assoc).
    assert (Py.rfind_from "}"%char ("}" ++ post)
              (0 + Z.of_nat (String.length (pre ++ "{" ++ body)))
            = Z.of_nat (String.length pre + 1 + String.length body)) as E.
    { assert (∀ j, 0 ≤ j → Py.rfind_from "}"%char post j = -1) as Habs.
      { intros j Hj. eapply (rfind_from_absent_shift _ _ 0); [lia|done|].
        exact Hpost. }
      simpl. rewrite Habs by lia.
      simpl. rewrite length_app_string. simpl.
      change (EmptyString ++ body) with body. lia. }
    rewrite rfind_from_app_present; rewrite E; [done|lia]. }
  split_and!; [done..|].
  unfold json_slice, Py.slice. rewrite Hf, Hr.
  rewrite Nat2Z.id.
  replace (Z.to_nat (Z.of_nat (String.length pre + 1 + String.length body) + 1
                     - Z.of_nat (String.length pre)))
    with (String.length ("{" ++ body ++ "}"))
    by (rewrite !length_app_string; simpl; lia).
  rewrite <- (substring_middle pre ("{" ++ body ++ "}") post) at 2.
  by rewrite !string_app_assoc.
Qed.

(** X1. Chatter around the JSON object is ignored: when the reply is some
    text without an opening brace, then a brace-delimited body, then some
    text without a closing brace, the classifier decodes exactly the
    brace-delimited body and nothing else decides its result. *)
Theorem extract_json_ignores_chatter (svc : llm_service)
    (pre body post : string) :
  Py.find "{"%char pre = -1 → Py.rfind "}"%char post = -1 →
  _extract_json svc (pre ++ "{" ++ body ++ "}" ++ post)
    = match json_loads svc ("{" ++ body ++ "}") with
      | Some parsed => _validate_and_clean parsed
      | None => Ok default_classification
      end.
Proof.
  intros Hpre Hpost.
  destruct (json_slice_chatter pre body post Hpre Hpost) as (Hf & Hr & Hs).
  unfold _extract_json. fold (json_slice (pre ++ "{" ++ body ++ "}" ++ post)).
  rewrite Hs, Hf, Hr.
  destruct (Z.eqb_spec (Z.of_nat (String.length pre)) (-1)); [lia|].
  destruct (Z.eqb_spec
    (Z.of_nat (String.length pre + 1 + String.length body) + 1) 0); [lia|].
  reflexivity.
Qed.

Lemma extract_json_ignores_chatter_witness :
  _extract_json (demo_service PostRaises)
    ("Sure, here it is: " ++ "{" ++ "not json at all" ++ "}" ++ " Bye.")
    = Ok default_classification.
Proof.
  rewrite (extract_json_ignores_chatter _ "Sure, here it is: "
             "not json at all" " Bye." eq_refl eq_refl).
  reflexivity.
Defined.

(** The loop raises exactly when a list or a dict sits among the values
    it iterates over, and then with [TypeError]. *)
Lemma unique_loop_raises intents : ∀ seen unique_intents,
  (∃ v, v ∈ intents ∧ Py.hashable v = false) ↔
  unique_loop seen unique_intents intents = Raise TypeError.
Proof.
  induction intents as [|intent rest IH]; intros seen uniq; simpl.
  - split; [|discriminate]. intros (v & Hv & _). by apply not_elem_of_nil in Hv.
  - destruct (Py.hashable intent) eqn:Hh.
    + assert ((∃ v, v ∈ intent :: rest ∧ Py.hashable v = false)
              ↔ (∃ v, v ∈ rest ∧ Py.hashable v = false)) as ->.
      { split; intros (v & Hv & Hf); exists v; (split; [|done]).
        - apply elem_of_cons in Hv as [->|Hv]; [congruence|done].
        - by right. }
      destruct (Py.set_contains seen intent); apply IH.
    + split; [done|]. intros _. exists intent. split; [left|done].
Qed.

Lemma unique_loop_raises_only_TypeError intents : ∀ seen unique_intents e,
  unique_loop seen unique_intents intents = Raise e → e = TypeError.
Proof.
  induction intents as [|intent rest IH]; intros seen uniq e; simpl;
    [discriminate|].
  destruct (Py.hashable intent); [|by intros [= <-]].
  destruct (Py.set_contains seen intent); apply IH.
Qed.

(** X2. The validation step raises exactly when a list or a dict sits
    among the intents of the decoded reply (or is the whole, non-list
    intents value); the exception is a [TypeError], and on any other
    reply the step returns a classification. *)
Theorem validate_raises_iff_unhashable (parsed : gmap string json) :
  ((∃ v, v ∈ ensure_intents_list parsed ∧ Py.hashable v = false) ↔
   _validate_and_clean parsed = Raise TypeError) ∧
  (∀ e, _validate_and_clean parsed = Raise e → e = TypeError) ∧
  ((∀ v, v ∈ ensure_intents_list parsed → Py.hashable v = true) →
   ∃ c, _validate_and_clean parsed = Ok c).
Proof.
  unfold _validate_and_clean. split_and!.
  - rewrite (unique_loop_raises _ [] []).
    destruct (unique_loop [] [] (ensure_intents_list parsed)); simpl;
      split; congruence.
  - intros e.
    destruct (unique_loop [] [] (ensure_intents_list parsed)) eqn:Hu; simpl;
      [discriminate|].
    intros [= <-]. by eapply unique_loop_raises_only_TypeError.
  - intros Hh.
    destruct (unique_loop_returns (ensure_intents_list parsed) [] [])
      as (u & ->); [by apply Forall_forall|].
    by eexists.
Qed.

Lemma validate_raises_iff_unhashable_witness :
  _validate_and_clean nested_parsed = Raise TypeError ∧
  ∃ c, _validate_and_clean demo_parsed = Ok c.
Proof.
  split.
  - apply (proj1 (proj1 (validate_raises_iff_unhashable nested_parsed))).
    exists (JArr [JStr "search_property"]). split; [|done].
    vm_compute. left.
  - apply (proj2 (proj2 (validate_raises_iff_unhashable demo_parsed))).
    intros v Hv. vm_compute in Hv.
    repeat (apply elem_of_cons in Hv as [->|Hv]; [done|]).
    by apply not_elem_of_nil in Hv.
Defined.

(** X3. What [route] hands to the planner: an out-of-scope query comes
    with no intents and no slots; otherwise the intents are distinct
    names of the enumeration, exactly one of them for a simple query and
    two or more for a complex one; no other query type is produced. *)
Theorem route_result_shape (svc : llm_service) (user_input : string)
    (query_type : string) (ints : list string) (sl : json) :
  route svc user_input = Ok (query_type, ints, sl) →
  (query_type = "out_of_scope" ∧ ints = [] ∧ sl = JObj ∅) ∨
  ((query_type = "simple-query" ∧ length ints = 1%nat ∨
    query_type = "complex-query" ∧ (2 ≤ length ints)%nat) ∧
   NoDup ints ∧ Forall (λ s, s ∈ intent_enumeration) ints).
Proof.
  intros Hroute. pose proof (route_shape _ _ _ _ _ Hroute) as Hshape.
  destruct Hshape as [?|Hshape]; [by left|right]. split; [done|].
  revert Hroute. unfold route.
  destruct (_call_llm svc _) as [[| | | |text| |]|]; simpl; try discriminate.
  destruct (_extract_json svc text) as [c|] eqn:Hc; simpl; [|discriminate].
  apply extract_json_intents_ok in Hc as (Hnd & Hall & _).
  destruct (negb (Py.truthy (in_scope c))).
  - intros [= <- <- <-]. destruct Hshape as [[? ?]|[? ?]]; done.
  - case_bool_decide; by intros [= <- <- <-].
Qed.

Lemma route_result_shape_witness :
  route (demo_service (completion demo_reply))
    "Find 2BHK in Mumbai and generate a report"
    = Ok ("complex-query", ["search_property"; "generate_report"],
          JObj demo_slots) ∧
  NoDup ["search_property"; "generate_report"].
Proof.
  assert (route (demo_service (completion demo_reply))
            "Find 2BHK in Mumbai and generate a report"
          = Ok ("complex-query", ["search_property"; "generate_report"],
                JObj demo_slots)) as H by (vm_compute; reflexivity).
  split; [exact H|].
  destruct (route_result_shape _ _ _ _ _ H) as [(Hq & _)|(_ & Hnd & _)];
    [discriminate Hq|exact Hnd].
Defined.

(** X4. The completion call returns a value exactly when the response has
    no error status and its body is an object whose [choices] is a list
    that starts with an object whose [message] is an object with a key
    [content]; it returns the value under that key as it is, whatever its
    type, so a [null] content comes back as [None].  It is [route] that
    needs a text: on a returned value that is not a string it raises
    [AttributeError]. *)
Theorem call_llm_returns_iff (svc : llm_service) (user_input : string) :
  let prompt := _build_prompt svc user_input in
  (∀ content,
     _call_llm svc prompt = Ok content ↔
     ∃ status body rest choice message,
       requests_post svc prompt = Response status (Some (JObj body)) ∧
       ¬ (400 ≤ status < 600) ∧
       body !! "choices" = Some (JArr (JObj choice :: rest)) ∧
       choice !! "message" = Some (JObj message) ∧
       message !! "content" = Some content) ∧
  (∀ content,
     _call_llm svc prompt = Ok content → (∀ text, content ≠ JStr text) →
     route svc user_input = Raise AttributeError).
Proof.
  intros prompt. split; intros content.
  - unfold _call_llm. split.
    + destruct (requests_post svc prompt) as [|status [body|]];
        [discriminate| |].
      * destruct (Z.leb_spec 400 status), (Z.ltb_spec status 600); simpl;
          try discriminate;
          (destruct body as [| | | | | |body]; simpl; try discriminate;
           destruct (body !! "choices")
             as [[| | | | |[|[| | | | | |choice] rest]|]|]
             eqn:Hch; simpl; try discriminate;
           try (by destruct s);
           destruct (choice !! "message") as [[| | | | | |message]|] eqn:Hm;
             simpl; try discriminate;
           destruct (message !! "content") as [c|] eqn:Hco;
             simpl; try discriminate;
           intros [= <-]; exists status, body, rest, choice, message;
           split_and!; try done; lia).
      * destruct ((400 <=? status) && (status <? 600)); discriminate.
    + intros (status & body & rest & choice & message
              & -> & Hs & Hch & Hm & Hco).
      assert ((400 <=? status) && (status <? 600) = false) as ->.
      { destruct (Z.leb_spec 400 status), (Z.ltb_spec status 600); simpl;
          try done. lia. }
      simpl. rewrite Hch. simpl. rewrite Hm. simpl. by rewrite Hco.
  - intros Hcall Hnot. unfold route. fold prompt. rewrite Hcall. simpl.
    destruct content; try reflexivity. by destruct (Hnot s).
Qed.

Lemma call_llm_returns_iff_witness :
  _call_llm (demo_service (completion "hello"))
    (_build_prompt (demo_service (completion "hello")) "any question")
    = Ok (JStr "hello") ∧
  route (demo_service null_completion) "any question" = Raise AttributeError.
Proof.
  split.
  - apply (proj1 (call_llm_returns_iff _ _)).
    eexists 200, _, _, _, _. split_and!; [reflexivity|lia|reflexivity..].
  - apply (proj2 (call_llm_returns_iff _ _) JNull);
      [vm_compute; reflexivity|discriminate].
Defined.

End RouterSliceFacts.

(** ** More on the planner *)

Section PlannerOrderFacts.
Import Planner.

Lemma planned_for_agents slots intents tasks :
  Forall2 (planned_for slots) intents tasks → agent <$> tasks = intents.
Proof.
  induction 1 as [|i t ints ts [Ha _] _ IH]; [done|].
  rewrite fmap_cons. by rewrite Ha, IH.
Qed.

(** X5. Whenever [plan] returns for a query that is not out of scope, the
    agents of its tasks are, in order: the intents themselves for a
    complex query, the first intent alone for a simple query or an
    unknown query type, and [general_query] when there is no intent; in
    particular the plan is never empty. *)
Theorem plan_preserves_order (query_type : string) (intents : list string)
    (slots : json) (tasks : list task) :
  query_type ≠ "out_of_scope" →
  plan query_type intents slots = Ok tasks →
  agent <$> tasks =
    match intents with
    | [] => ["general_query"]
    | first :: _ =>
        if bool_decide (query_type = "complex-query") then intents
        else [first]
    end
  ∧ tasks ≠ [].
Proof.
  intros Hq Hplan.
  assert (agent <$> tasks =
    match intents with
    | [] => ["general_query"]
    | first :: _ =>
        if bool_decide (query_type = "complex-query") then intents
        else [first]
    end) as Hagents.
  { revert Hplan. unfold plan.
    rewrite bool_decide_eq_false_2 by done.
    case_bool_decide as Hs.
    - subst. destruct intents as [|i rest]; [by intros [= <-]|].
      intros H. apply (plan_simple_spec i rest) in H.
      by apply planned_for_agents in H.
    - case_bool_decide as Hc.
      + destruct intents as [|i rest]; [by intros [= <-]|].
        intros H. apply plan_complex_spec in H; [|done].
        by apply planned_for_agents in H.
      + destruct intents as [|i rest]; [by intros [= <-]|].
        intros H. apply (plan_simple_spec i rest) in H.
        by apply planned_for_agents in H. }
  split; [done|]. intros ->. revert Hagents.
  destruct intents; [done|]. by case_bool_decide.
Qed.

Lemma plan_preserves_order_witness :
  agent <$> demo_tasks = ["search_property"; "generate_report"]
  ∧ demo_tasks ≠ [].
Proof.
  apply (plan_preserves_order "complex-query"
           ["search_property"; "generate_report"] (JObj demo_slots) demo_tasks).
  - discriminate.
  - vm_compute. reflexivity.
Defined.

(** X6. The projection only selects: the params it returns are a part of
    the slot mapping, and projecting them once more for the same intent
    changes nothing. *)
Theorem extract_relevant_params_idempotent (intent : string)
    (slots params : gmap string json) :
  _extract_relevant_params intent (JObj slots) = Ok params →
  params ⊆ slots ∧
  _extract_relevant_params intent (JObj params) = Ok params.
Proof.
  intros Hp.
  destruct (extract_relevant_params_dict intent slots) as (ps & Hps & Hchar).
  rewrite Hp in Hps. injection Hps as <-.
  split.
  - apply map_subseteq_spec. intros k v Hk. by apply Hchar in Hk as (_ & ? & _).
  - destruct (extract_relevant_params_dict intent params)
      as (ps' & -> & Hchar').
    f_equal. apply map_eq. intros k.
    destruct (ps' !! k) as [v|] eqn:Hk.
    + by apply Hchar' in Hk as (_ & ? & _).
    + destruct (params !! k) as [v|] eqn:Hk'; [|done].
      assert (ps' !! k = Some v) as Hk''; [|congruence].
      apply Hchar'. apply Hchar in Hk' as Hk3. tauto.
Qed.

Lemma extract_relevant_params_idempotent_witness :
  ({[ "location" := JStr "Mumbai"; "num_rooms" := JInt 2 ]}
     : gmap string json) ⊆ demo_slots ∧
  _extract_relevant_params "search_property"
    (JObj {[ "location" := JStr "Mumbai"; "num_rooms" := JInt 2 ]})
    = Ok {[ "location" := JStr "Mumbai"; "num_rooms" := JInt 2 ]}.
Proof.
  apply (extract_relevant_params_idempotent "search_property" demo_slots).
  vm_compute. reflexivity.
Defined.

Lemma collect_params_not_dict slots relevant_keys :
  (∀ m, slots ≠ JObj m) →
  collect_params slots relevant_keys ∅ = Ok ∅ ∨
  collect_params slots relevant_keys ∅ = Raise TypeError.
Proof.
  intros Hnd. induction relevant_keys as [|key rest IH]; simpl; [by left|].
  destruct slots as [| | | |s|l|m]; simpl; try (by right);
    [| |by destruct (Hnd m)].
  - destruct (str_contains key s); simpl; [by right|exact IH].
  - destruct (existsb _ l); simpl; [by right|exact IH].
Qed.

(** X7. Slots that are not a mapping never yield params: the projection
    then returns the empty mapping or raises [TypeError].  It returns
    the empty mapping, whatever the slots are, for an intent whose
    allow-list is empty, and it raises for a null, boolean or numeric
    slots value as soon as the allow-list is not empty. *)
Theorem extract_relevant_params_not_mapping (intent : string) (slots : json) :
  ((∀ m, slots ≠ JObj m) →
     _extract_relevant_params intent slots = Ok ∅ ∨
     _extract_relevant_params intent slots = Raise TypeError) ∧
  (allow_list intent = [] → _extract_relevant_params intent slots = Ok ∅) ∧
  (allow_list intent ≠ [] →
   (∀ m, slots ≠ JObj m) → (∀ l, slots ≠ JArr l) → (∀ s, slots ≠ JStr s) →
     _extract_relevant_params intent slots = Raise TypeError).
Proof.
  unfold _extract_relevant_params. rewrite agent_params_allow_list.
  split_and!.
  - apply collect_params_not_dict.
  - by intros ->.
  - intros Hne Hm Hl Hs. destruct (allow_list intent) as [|key rest]; [done|].
    destruct slots as [| | | |s|l|m]; simpl; try done.
    + by destruct (Hs s).
    + by destruct (Hl l).
    + by destruct (Hm m).
Qed.

Lemma extract_relevant_params_not_mapping_witness :
  _extract_relevant_params "generate_report" (JInt 5) = Ok ∅ ∧
  _extract_relevant_params "search_property" (JInt 5) = Raise TypeError.
Proof.
  split.
  - apply (proj1 (proj2 (extract_relevant_params_not_mapping
                            "generate_report" (JInt 5)))).
    reflexivity.
  - apply (proj2 (proj2 (extract_relevant_params_not_mapping
                            "search_property" (JInt 5)))); done.
Defined.

End PlannerOrderFacts.

(** ** More on the query builder *)

Section QueryTextFacts.
Import StructuredAgent.

(** X8. The statement and its parameters always fit: the built query has
    exactly as many [%s] placeholders as there are bound parameters, at
    most five. *)
Theorem build_query_placeholders (filters : gmap string json) :
  placeholders (_build_query filters).1 = length (_build_query filters).2 ∧
  (length (_build_query filters).2 ≤ 5)%nat.
Proof.
  unfold _build_query, add_filter.
  destruct (Py.truthy (Py.dict_get filters "location"));
  destruct (Py.truthy (Py.dict_get filters "num_rooms"));
  destruct (Py.truthy (Py.dict_get filters "max_price"));
  destruct (Py.truthy (Py.dict_get filters "min_price"));
  destruct (Py.truthy (Py.dict_get filters "property_size_sqft"));
  (split; [vm_compute; reflexivity|simpl; lia]).
Qed.

(** X9. No filter value ever enters the text of the statement: two filter
    mappings that agree on which of the five keys hold a true value give
    the same query text, character for character; the values travel in
    the parameter list only. *)
Theorem build_query_text_independent_of_values
    (filters filters' : gmap string json) :
  (∀ key, key ∈ ["location"; "num_rooms"; "max_price"; "min_price";
                 "property_size_sqft"] →
     Py.truthy (Py.dict_get filters key)
       = Py.truthy (Py.dict_get filters' key)) →
  (_build_query filters).1 = (_build_query filters').1.
Proof.
  intros H. unfold _build_query, add_filter.
  rewrite <- (H "location"), <- (H "num_rooms"), <- (H "max_price"),
    <- (H "min_price"), <- (H "property_size_sqft")
    by (rewrite !elem_of_cons; tauto).
  destruct (Py.truthy (Py.dict_get filters "location"));
  destruct (Py.truthy (Py.dict_get filters "num_rooms"));
  destruct (Py.truthy (Py.dict_get filters "max_price"));
  destruct (Py.truthy (Py.dict_get filters "min_price"));
  destruct (Py.truthy (Py.dict_get filters "property_size_sqft"));
  reflexivity.
Qed.

Lemma build_query_text_independent_of_values_witness :
  (_build_query {[ "location" := JStr "Mumbai" ]}).1
    = (_build_query {[ "location" := JStr "x'; DROP TABLE properties; --" ]}).1.
Proof.
  apply build_query_text_independent_of_values.
  intros key Hkey.
  repeat (apply elem_of_cons in Hkey as [->|Hkey]; [reflexivity|]).
  by apply not_elem_of_nil in Hkey.
Defined.

End QueryTextFacts.

(** ** More on the memory *)

Section MemoryFacts.
Import Memory.

Lemma session_key_inj uid key key' :
  "session:" ++ uid ++ ":" ++ key = "session:" ++ uid ++ ":" ++ key' →
  key = key'.
Proof. intros H. by repeat apply String.app_inj in H. Qed.

(** X10. A session value can be read back: after [set_context key value],
    [get_context key] returns [value] and [get_context] of any other key
    returns what it returned before, whether the cache server or the
    in-process mapping is in use. *)
Theorem session_round_trip (key : string) (value : json) (w : world) :
  let w' := (set_context key value w).2 in
  get_context key w' = (Ok value, w') ∧
  ∀ key', key' ≠ key → (get_context key' w').1 = (get_context key' w).1.
Proof.
  unfold set_context, get_context, modify, gets. simpl.
  destruct w as [uid ep [] rd st um db ct cr rp]; simpl; split.
  - unfold full_key. simpl. by rewrite lookup_insert_eq.
  - intros key' Hne. rewrite lookup_insert_ne; [done|].
    unfold full_key. simpl. intros H. by apply session_key_inj in H.
  - unfold full_key. simpl. by rewrite lookup_insert_eq.
  - intros key' Hne. rewrite lookup_insert_ne; [done|].
    unfold full_key. simpl. intros H. by apply session_key_inj in H.
Qed.

Lemma session_round_trip_witness :
  (get_context "last_search_results"
     (set_context "budget_hint" (JInt 5) demo_world_after_search).2).1
    = Ok (JArr demo_rows).
Proof.
  rewrite (proj2 (session_round_trip "budget_hint" (JInt 5)
                    demo_world_after_search)) by discriminate.
  reflexivity.
Defined.

Lemma find_from_absent_shift c s : ∀ i j,
  0 ≤ i → 0 ≤ j → Py.find_from c s i = -1 → Py.find_from c s j = -1.
Proof.
  induction s as [|a r IH]; intros i j Hi Hj; simpl; [done|].
  destruct (Ascii.eqb a c); [lia|]. apply IH; lia.
Qed.

Lemma string_app_nil_l s : EmptyString ++ s = s.
Proof. reflexivity. Qed.

Lemma string_app_cons a r s : String a r ++ s = String a (r ++ s).
Proof. reflexivity. Qed.

Lemma colon_split u : ∀ u' k k',
  Py.find ":"%char u = -1 → Py.find ":"%char u' = -1 →
  u ++ String ":" k = u' ++ String ":" k' → u = u' ∧ k = k'.
Proof.
  unfold Py.find.
  induction u as [|a r IH]; intros [|a' r'] k k' Hu Hu' H;
    rewrite ?string_app_nil_l, ?string_app_cons in H.
  - by injection H as ->.
  - injection H as <- _. simpl in Hu'. lia.
  - injection H as -> _. simpl in Hu. lia.
  - injection H as -> H. simpl in Hu, Hu'.
    destruct (Ascii.eqb a' ":"); [lia|].
    destruct (IH r' k k') as [-> ->]; try done;
      eapply (find_from_absent_shift _ _ 1); try lia; done.
Qed.

(** X11. Users do not share session keys, provided their ids hold no
    colon: the keys [session:{user_id}:{key}] of two such users coincide
    only when the users and the keys do. *)
Theorem full_key_isolates_users (w1 w2 : world) (key1 key2 : string) :
  Py.find ":"%char (user_id w1) = -1 →
  Py.find ":"%char (user_id w2) = -1 →
  full_key w1 key1 = full_key w2 key2 →
  user_id w1 = user_id w2 ∧ key1 = key2.
Proof.
  intros H1 H2 H. unfold full_key in H. apply String.app_inj in H.
  by apply colon_split.
Qed.

Lemma full_key_isolates_users_witness :
  user_id demo_world = user_id demo_world_after_search ∧
  "last_search_results" = "last_search_results".
Proof.
  apply (full_key_isolates_users demo_world demo_world_after_search);
    reflexivity.
Defined.

(** With a colon in a user id, two users can meet on one key. *)
Example full_key_collision :
  full_key (fresh_world "a") "b:c" = full_key (fresh_world "a:b") "c".
Proof. reflexivity. Qed.

Lemma prefix_app s t t' :
  String.prefix (s ++ t) (s ++ t') = String.prefix t t'.
Proof.
  induction s as [|a r IH]; [done|].
  change (String.prefix (String a (r ++ t)) (String a (r ++ t'))
          = String.prefix t t').
  simpl. by destruct (ascii_dec a a).
Qed.

Lemma full_key_prefix w key :
  String.prefix (full_key w EmptyString) (full_key w key) = true.
Proof.
  unfold full_key. rewrite !prefix_app. by destruct key.
Qed.

(** X12. Clearing the session forgets every session value of the user:
    afterwards [get_context] returns [None] for every key.  With the
    cache server in use (and a user id free of pattern wildcards) the
    keys outside the user's prefix stay as they were; the conversation
    log and the preferences are not touched in either case. *)
Theorem clear_session_forgets (w : world) :
  glob_free (user_id w) →
  let w' := (clear_session w).2 in
  (∀ key, get_context key w' = (Ok JNull, w')) ∧
  (∀ full, String.prefix (full_key w EmptyString) full = false →
           redis w' !! full = redis w !! full) ∧
  episodic w' = episodic w ∧ user_memory w' = user_memory w.
Proof.
  intros _. unfold clear_session, get_context, modify, gets. simpl.
  destruct w as [uid ep [] rd st um db ct cr rp]; simpl; split_and!; try done.
  - intros key.
    change (full_key (set_redis _ _) key)
      with (full_key {| user_id := uid; episodic := ep; redis_available := true;
                        redis := rd; shortterm := st; user_memory := um;
                        db_reachable := db; column_text := ct;
                        clock_reads := cr; reports := rp |}
                     key).
    rewrite (proj2 (map_lookup_filter_None _ _ _)); [done|].
    right. intros x _. cbn [fst]. rewrite full_key_prefix. discriminate.
  - intros full Hfull.
    destruct (rd !! full) as [x|] eqn:Hx.
    + apply map_lookup_filter_Some. split; [done|]. cbn [fst]. by rewrite Hfull.
    + apply map_lookup_filter_None. by left.
Qed.

Lemma glob_free_default_user : glob_free "default_user".
Proof.
  unfold glob_free. simpl.
  repeat (apply List.Forall_cons;
          [rewrite !elem_of_cons, elem_of_nil;
           intros H; decompose [or] H; (discriminate || contradiction)|]).
  apply List.Forall_nil.
Qed.

Lemma clear_session_forgets_witness :
  get_context "last_search_results" (clear_session demo_world_after_search).2
    = (Ok JNull, (clear_session demo_world_after_search).2).
Proof.
  apply (proj1 (clear_session_forgets demo_world_after_search
                  glob_free_default_user)).
Defined.

Lemma preferences_of_lookup (uid : string)
    (table : gmap (string * string) json) (key : string) :
  preferences_of uid table !! key = table !! (uid, key).
Proof.
  unfold preferences_of.
  apply (map_fold_weak_ind
    (λ r (m : gmap (string * string) json), r !! key = m !! (uid, key))).
  - by rewrite !lookup_empty.
  - intros [u k] x m r Hfresh IH. destruct (decide (u = uid)) as [->|Hu].
    + destruct (decide (k = key)) as [->|Hk].
      * by rewrite !lookup_insert_eq.
      * rewrite !lookup_insert_ne by congruence. done.
    + rewrite lookup_insert_ne by congruence. done.
Qed.

(** X13. A preference is upserted: with a reachable database, a user id
    and a key that fit the table, and two values [a] and [b] that the
    column accepts, after saving [a] and then [b] under the key, reading
    the key gives what the column keeps for [b] -- [b] itself when it is
    a string, its decimal numeral when it is an integer -- and the user's
    preferences are those from before with the single entry for the key
    set to that. *)
Theorem preference_upsert (key : string) (a b ta tb : json) (w : world) :
  db_reachable w = true → storable (user_id w) → storable key →
  memory_value w a = Ok ta → memory_value w b = Ok tb →
  let w2 := (save_preference key b (save_preference key a w).2).2 in
  get_preference key w2 = (Ok tb, w2) ∧
  get_all_preferences w2
    = (Ok (<[key := tb]> (preferences_of (user_id w) (user_memory w))), w2) ∧
  (∀ s, b = JStr s → tb = JStr s) ∧
  (∀ n, b = JInt n → tb = JStr (pretty n)).
Proof.
  intros Hdb Hst Hkey Ha Hb.
  rewrite (save_preference_ok key a w ta Hdb Hst Hkey Ha). cbn [snd].
  set (w1 := set_user_memory (<[(user_id w, key) := ta]> (user_memory w)) w).
  assert (memory_value w1 b = Ok tb) as Hb1
    by (unfold w1; by rewrite memory_value_set_user_memory).
  rewrite (save_preference_ok key b w1 tb Hdb Hst Hkey Hb1). unfold w1.
  cbn [snd]. unfold get_preference, get_all_preferences, bind_str.
  destruct Hst as [Hn _], Hkey as [Hkn _].
  simpl. rewrite Hdb, Hn, Hkn. simpl. split_and!.
  - by rewrite lookup_insert_eq.
  - f_equal. f_equal. apply map_eq. intros k.
    rewrite preferences_of_lookup.
    destruct (decide (k = key)) as [->|Hk].
    + by rewrite !lookup_insert_eq.
    + rewrite !lookup_insert_ne by congruence.
      by rewrite preferences_of_lookup.
  - intros s ->. revert Hb. unfold memory_value, bind_str.
    destruct (has_nul s); simpl; congruence.
  - intros n ->. simpl in Hb. congruence.
Qed.

Lemma preference_upsert_witness :
  (get_all_preferences
     (save_preference "budget" (JInt 70)
        (save_preference "budget" (JStr "50") demo_world).2).2).1
    = Ok {[ "budget" := JStr "70" ]}.
Proof.
  assert (storable (user_id demo_world)) as Hst
    by (split; [reflexivity|simpl; lia]).
  assert (storable "budget") as Hkey by (split; [reflexivity|simpl; lia]).
  rewrite (proj1 (proj2 (preference_upsert "budget" (JStr "50") (JInt 70)
                           (JStr "50") (JStr "70") demo_world
                           eq_refl Hst Hkey eq_refl eq_refl))).
  reflexivity.
Defined.



(** X15. Whatever [last_n] is, the history read is a final stretch of the
    episodic log, in the log's order; a negative [last_n] drops that many
    of the oldest entries instead of keeping that many of the newest. *)
Theorem conversation_history_suffix (last_n : option Z) (w : world) :
  get_conversation_history last_n w `suffix_of` episodic w ∧
  ∀ k : nat, (0 < k)%nat →
    get_conversation_history (Some (- Z.of_nat k)) w = drop k (episodic w).
Proof.
  split.
  - unfold get_conversation_history.
    destruct last_n as [n|]; [|done].
    destruct (negb (n =? 0)); [|done].
    unfold list_slice_from. apply suffix_drop.
  - intros k Hk. unfold get_conversation_history, list_slice_from.
    destruct (Z.eqb_spec (- Z.of_nat k) 0); [lia|]. simpl.
    rewrite Z.opp_involutive.
    destruct (Z.ltb_spec (Z.of_nat k) 0); [lia|].
    destruct (decide (k ≤ length (episodic w))%nat).
    + f_equal. lia.
    + rewrite !drop_ge; [done|lia|lia].
Qed.

Lemma conversation_history_suffix_witness :
  get_conversation_history (Some (- Z.of_nat 1)) demo_world
    = [ {| role := "assistant"; content := "hi"; timestamp := "t1" |} ].
Proof.
  rewrite (proj2 (conversation_history_suffix None demo_world) 1%nat
             ltac:(lia)).
  reflexivity.
Defined.

(** X16. The message just added is the newest of the log: reading the
    history with [last_n = 1] right after [add_message] returns that one
    message, with its role and content, and reading all of it returns the
    earlier history followed by it; [clear_conversation] leaves nothing
    to read, and neither touches session memory or preferences. *)
Theorem add_message_is_newest (now : nat → string) (role content : string)
    (w : world) :
  let w' := (add_message now role content w).2 in
  let message := {| role := role; content := content;
                    timestamp := now (clock_reads w) |} in
  get_conversation_history (Some 1) w' = [message] ∧
  get_conversation_history None w' = (episodic w ++ [message])%list ∧
  (∀ last_n, get_conversation_history last_n (clear_conversation w').2 = []) ∧
  same_session w w' ∧ user_memory w' = user_memory w.
Proof.
  unfold add_message, clear_conversation, modify. simpl. split_and!.
  - unfold get_conversation_history, list_slice_from. simpl.
    rewrite length_app. simpl.
    apply drop_app_length'. lia.
  - done.
  - intros [n|]; [|done]. unfold get_conversation_history, list_slice_from.
    cbn [episodic set_episodic]. destruct (negb (n =? 0)); [|done].
    apply drop_nil.
  - by repeat split.
  - done.
Qed.

End MemoryFacts.

(** ** More on the handlers and the dispatcher *)

Section HandlerFacts.
Import RealEstateChatbot.

Lemma string_app_nil_r s : s ++ EmptyString = s.
Proof.
  induction s as [|a r IH]; [done|]. rewrite string_app_cons. by rewrite IH.
Qed.

Lemma render_listing_lines self properties : ∀ response out,
  render_listing self response properties = Ok out ↔
  ∃ lines, Forall2 (λ p line, render_property self p = Ok line)
                   properties lines
           ∧ out = response ++ lines_text lines.
Proof.
  induction properties as [|p rest IH]; intros response out; simpl.
  - split.
    + intros [= <-]. exists []. split; [constructor|].
      simpl. by rewrite string_app_nil_r.
    + intros (lines & Hl & ->). apply Forall2_nil_inv_l in Hl as ->.
      simpl. by rewrite string_app_nil_r.
  - destruct (render_property self p) as [line|e] eqn:Hp; simpl.
    + rewrite IH. split.
      * intros (lines & Hl & ->). exists (line :: lines).
        split; [by constructor|]. simpl. by rewrite string_app_assoc.
      * intros (lines & Hl & ->).
        apply Forall2_cons_inv_l in Hl as (line' & lines' & Hp' & Hl & ->).
        rewrite Hp in Hp'. injection Hp' as <-.
        exists lines'. split; [done|]. simpl. by rewrite string_app_assoc.
    + split; [discriminate|]. intros (lines & Hl & _).
      apply Forall2_cons_inv_l in Hl as (line' & lines' & Hp' & _).
      congruence.
Qed.

(** X17. A search changes the memory only when it returns a listing:
    when nothing is found the handler says so and leaves the state as it
    was (results of an earlier search stay available), when the search or
    the rendering raises the state is untouched as well, and otherwise
    the only change is that all found properties are stored under
    [last_search_results]. *)
Theorem handle_search_state (self : agents) (slots : gmap string json)
    (w : world) :
  (search_properties self slots = Ok [] →
     _handle_search self slots w
       = (Ok ("No properties found matching your criteria: "
              ++ str self (JObj slots)), w)) ∧
  (∀ r w', _handle_search self slots w = (r, w') →
     w' = w ∨
     ∃ text properties,
       r = Ok text ∧ search_properties self slots = Ok properties ∧
       properties ≠ [] ∧
       w' = (Memory.set_context "last_search_results" (JArr properties) w).2).
Proof.
  unfold _handle_search, mbind, M_bind, lift. split.
  - by intros ->.
  - intros r w'.
    destruct (search_properties self slots) as [[|p props]|e];
      [intros [= <- <-]; by left| |intros [= <- <-]; by left].
    destruct (render_listing self _ _) as [listing|e];
      [|intros [= <- <-]; by left].
    destruct (set_context_object_cases (rows_encodable self (p :: props))
                "last_search_results" (JArr (p :: props)) w) as [-> | ->];
      intros [= <- <-]; [by left|].
    right. eexists _, (p :: props). by split_and!.
Qed.

Lemma handle_search_state_witness :
  _handle_search demo_agents_no_match ∅ demo_world_after_search
    = (Ok "No properties found matching your criteria: {...}",
       demo_world_after_search).
Proof.
  rewrite (proj1 (handle_search_state demo_agents_no_match ∅
                    demo_world_after_search)) by reflexivity.
  reflexivity.
Defined.

Lemma handle_search_returns_listing self (slots : gmap string json) w
    (properties : list json) (lines : list string) :
  search_properties self slots = Ok properties → properties ≠ [] →
  Forall2 (λ p line, render_property self p = Ok line)
          (take 10 properties) lines →
  redis_available w = false ∨ rows_encodable self properties = true →
  _handle_search self slots w
    = (Ok ("Found " ++ pretty (length properties) ++ " properties:"
           ++ LF ++ LF ++ lines_text lines
           ++ overflow_note (length properties)),
       (Memory.set_context "last_search_results" (JArr properties) w).2).
Proof.
  intros Hs Hne Hl Henc.
  unfold _handle_search, mbind, M_bind, lift. rewrite Hs.
  destruct properties as [|p props]; [done|].
  assert (render_listing self
            ("Found " ++ pretty (length (p :: props)) ++ " properties:"
             ++ LF ++ LF) (take 10 (p :: props))
          = Ok (("Found " ++ pretty (length (p :: props)) ++ " properties:"
                 ++ LF ++ LF) ++ lines_text lines)) as ->.
  { apply render_listing_lines. by exists lines. }
  rewrite (set_context_object_stores _ _ _ _ Henc).
  unfold overflow_note, mret, M_ret.
  f_equal. f_equal.
  destruct (10 <? length (p :: props))%nat;
    rewrite ?string_app_assoc, ?string_app_nil_r; reflexivity.
Qed.

Lemma handle_search_refuses self (slots : gmap string json) w
    (properties : list json) (lines : list string) :
  search_properties self slots = Ok properties → properties ≠ [] →
  Forall2 (λ p line, render_property self p = Ok line)
          (take 10 properties) lines →
  redis_available w = true → rows_encodable self properties = false →
  _handle_search self slots w = (Raise TypeError, w).
Proof.
  intros Hs Hne Hl Hra Henc.
  unfold _handle_search, mbind, M_bind, lift. rewrite Hs.
  destruct properties as [|p props]; [done|].
  assert (∃ out, render_listing self
            ("Found " ++ pretty (length (p :: props)) ++ " properties:"
             ++ LF ++ LF) (take 10 (p :: props)) = Ok out) as [out ->].
  { eexists. apply render_listing_lines. by exists lines. }
  unfold Memory.set_context_object. by rewrite Hra, Henc.
Qed.

(** X18. The listing of a search: a header with the number of properties
    found, the rendered lines of the first ten of them at most, in order,
    and, when there are more than ten, a note with the number left out.
    With the dict as session memory, or with rows that [json.dumps]
    accepts, the handler returns this listing and all properties found
    are stored, not just the ten shown.  With the cache server and rows
    that [json.dumps] refuses (a date or a Decimal in a column) it raises
    [TypeError] instead, and nothing is stored. *)
Theorem handle_search_listing (self : agents) (slots : gmap string json)
    (w : world) (properties : list json) (lines : list string) :
  search_properties self slots = Ok properties → properties ≠ [] →
  Forall2 (λ p line, render_property self p = Ok line)
          (take 10 properties) lines →
  (redis_available w = false ∨ rows_encodable self properties = true →
     _handle_search self slots w
       = (Ok ("Found " ++ pretty (length properties) ++ " properties:"
              ++ LF ++ LF ++ lines_text lines
              ++ overflow_note (length properties)),
          (Memory.set_context "last_search_results" (JArr properties) w).2))
  ∧ (redis_available w = true → rows_encodable self properties = false →
     _handle_search self slots w = (Raise TypeError, w))
  ∧ length lines = (length properties `min` 10)%nat.
Proof.
  intros Hs Hne Hl. split_and!.
  - by apply handle_search_returns_listing.
  - by apply (handle_search_refuses self slots w properties lines).
  - apply Forall2_length in Hl. rewrite <- Hl, length_take. lia.
Qed.

Lemma handle_search_listing_witness :
  _handle_search demo_agents {[ "location" := JStr "Mumbai" ]} demo_world
    = (Ok demo_listing, demo_world_after_search)
  ∧ _handle_search demo_agents_dated {[ "location" := JStr "Mumbai" ]}
      (fresh_world "default_user")
    = (Raise TypeError, fresh_world "default_user").
Proof.
  split.
  - rewrite (proj1 (handle_search_listing demo_agents
                      {[ "location" := JStr "Mumbai" ]} demo_world demo_rows
                      ["- a property" ++ LF; "- a property" ++ LF]
                      eq_refl ltac:(discriminate)
                      ltac:(repeat constructor))
               (or_introl eq_refl)).
    vm_compute. reflexivity.
  - exact (proj1 (proj2 (handle_search_listing demo_agents_dated
                           {[ "location" := JStr "Mumbai" ]}
                           (fresh_world "default_user") demo_rows
                           ["- a property" ++ LF; "- a property" ++ LF]
                           eq_refl ltac:(discriminate)
                           ltac:(repeat constructor)))
             eq_refl eq_refl).
Defined.

(** X19. A task for an agent outside the six names is answered with the
    generic reply and has no effect at all. *)
Theorem execute_task_unknown_agent (self : agents) (t : task)
    (user_input : string) (w : world) :
  agent t ∉ intent_enumeration →
  _execute_task self t user_input w = (Ok unknown_agent_reply, w).
Proof.
  unfold intent_enumeration. rewrite !not_elem_of_cons.
  intros (? & ? & ? & ? & ? & ? & _).
  unfold _execute_task. by rewrite !bool_decide_eq_false_2 by done.
Qed.

Lemma execute_task_unknown_agent_witness :
  _execute_task demo_agents {| agent := "book_flight"; params := ∅ |}
                "book me a flight" demo_world
    = (Ok unknown_agent_reply, demo_world).
Proof.
  apply execute_task_unknown_agent. unfold intent_enumeration. simpl.
  rewrite !not_elem_of_cons. split_and!; try discriminate.
  apply not_elem_of_nil.
Defined.

(** What each handler leaves as it was. *)
Lemma handle_search_frame self slots w :
  let w' := (_handle_search self slots w).2 in
  user_memory w' = user_memory w ∧ reports w' = reports w ∧
  db_reachable w' = db_reachable w ∧ user_id w' = user_id w ∧
  redis_available w' = redis_available w.
Proof.
  unfold _handle_search, mbind, M_bind, lift.
  destruct (search_properties self slots) as [[|p props]|e]; try done.
  destruct (render_listing self _ _); [|done].
  destruct (set_context_object_cases (rows_encodable self (p :: props))
              "last_search_results" (JArr (p :: props)) w) as [-> | ->];
    [done|].
  unfold Memory.set_context, modify. cbn [snd].
  destruct (redis_available w) eqn:E; simpl; by rewrite ?E.
Qed.

Lemma handle_report_frame self slots w :
  let w' := (_handle_report self slots w).2 in
  user_memory w' = user_memory w ∧
  db_reachable w' = db_reachable w.
Proof.
  unfold _handle_report, Memory.get_context, gets, mbind, M_bind, lift, modify.
  simpl.
  destruct (negb (Py.truthy _)); simpl; [done|].
  destruct (first_ten _) as [ps|e]; simpl; [|done].
  destruct (negb (Py.truthy ps)); simpl; [done|].
  by destruct (generate_report self ps).
Qed.

Lemma handle_save_preference_frame self slots user_input w :
  let w' := (_handle_save_preference self slots user_input w).2 in
  reports w' = reports w ∧ db_reachable w' = db_reachable w.
Proof.
  assert (∀ key value w0,
            reports (Memory.save_preference key value w0).2 = reports w0 ∧
            db_reachable (Memory.save_preference key value w0).2
              = db_reachable w0) as Hone.
  { intros key value w0. unfold Memory.save_preference.
    destruct (db_reachable w0) eqn:E;
      [destruct (Memory.insert_row w0 key value)|]; simpl; by rewrite ?E. }
  unfold _handle_save_preference, mbind, M_bind, mret, M_ret.
  destruct (Py.truthy (Py.dict_get slots "max_price"));
  destruct (Py.truthy (Py.dict_get slots "location"));
  destruct (Py.truthy (Py.dict_get slots "num_rooms"));
  repeat match goal with
         | |- context [Memory.save_preference ?k ?v ?w0] =>
             let H := fresh "H" in
             pose proof (Hone k v w0) as H;
             destruct (Memory.save_preference k v w0) as [[[]|?] ?];
             cbn [snd] in H
         end;
  cbn [snd]; intuition congruence.
Qed.

(** X20. Each part of the state has one writer: whatever a task does and
    however it ends, the conversation log, the clock, the user id and the
    backends are as before; the session memory is as before unless the
    task is a search, the stored preferences unless it is a preference
    save, and the record of report builds unless it is a report. *)
Theorem execute_task_frame (self : agents) (t : task) (user_input : string)
    (w : world) :
  let w' := (_execute_task self t user_input w).2 in
  same_log w w' ∧ user_id w' = user_id w ∧
  redis_available w' = redis_available w ∧
  db_reachable w' = db_reachable w ∧
  (agent t ≠ "search_property" →
     redis w' = redis w ∧ shortterm w' = shortterm w) ∧
  (agent t ≠ "save_preference" → user_memory w' = user_memory w) ∧
  (agent t ≠ "generate_report" → reports w' = reports w).
Proof.
  pose proof (execute_task_same self t user_input w) as [Hlog Hsess].
  simpl. split; [exact Hlog|]. revert Hsess. unfold _execute_task.
  case_bool_decide as H1.
  { intros _.
    pose proof (handle_search_frame self (params t) w) as (?&?&?&?&?).
    split_and!; try done. }
  case_bool_decide as H2.
  { intros _. simpl. by split_and!. }
  case_bool_decide as H3.
  { intros Hs. destruct (Hs H1) as (?&?&?&?).
    pose proof (handle_report_frame self (params t) w) as (?&?).
    split_and!; try done. }
  case_bool_decide as H4.
  { intros Hs. destruct (Hs H1) as (?&?&?&?).
    pose proof (handle_save_preference_frame self (params t) user_input w)
      as (?&?).
    split_and!; try done. }
  case_bool_decide as H5.
  { intros _. simpl. by split_and!. }
  case_bool_decide as H6.
  { intros _. rewrite handle_general_query_same. by split_and!. }
  intros _. simpl. by split_and!.
Qed.

Lemma execute_task_frame_witness :
  user_memory (_execute_task demo_agents
                 {| agent := "search_property"; params := ∅ |}
                 "find flats" demo_world).2
    = user_memory demo_world.
Proof.
  apply (execute_task_frame demo_agents
           {| agent := "search_property"; params := ∅ |}
           "find flats" demo_world).
  discriminate.
Defined.

End HandlerFacts.

(** ** More on whole plans and whole turns *)

Section TurnFacts.
Import RealEstateChatbot.

(** X21. A report planned after a search in the same turn reads what that
    search has just stored.  When the search finds properties, they
    render, the session memory takes them (it is the dict, or
    [json.dumps] accepts the rows) and the report builder returns a path,
    the two-task plan returns both blocks and the builder has been
    called, once, on the first ten properties of this very search.  With
    the cache server and rows that [json.dumps] refuses, the plan raises
    [TypeError] at the search, in the state it started from, and no
    report is built. *)
Theorem search_then_report_same_turn (self : agents)
    (filters report_params : gmap string json) (user_input : string)
    (w : world) (properties : list json) (lines : list string)
    (pdf_path : json) :
  search_properties self filters = Ok properties → properties ≠ [] →
  Forall2 (λ p line, render_property self p = Ok line)
          (take 10 properties) lines →
  generate_report self (JArr (take 10 properties)) = Ok pdf_path →
  let tasks :=
    [ {| agent := "search_property"; params := filters |};
      {| agent := "generate_report"; params := report_params |} ] in
  (redis_available w = false ∨ rows_encodable self properties = true →
   ∃ w',
    _execute_complex_tasks self tasks user_input w
    = (Ok (LF ++ LF ++ "**Search Property:**" ++ LF
           ++ ("Found " ++ pretty (length properties) ++ " properties:"
               ++ LF ++ LF ++ lines_text lines
               ++ overflow_note (length properties))
           ++ separator ++ "**Generate Report:**" ++ LF
           ++ ("Report generated successfully! Saved to: "
               ++ str self pdf_path)), w') ∧
    reports w' = (reports w ++ [JArr (take 10 properties)])%list ∧
    last_search_results w' = JArr properties) ∧
  (redis_available w = true → rows_encodable self properties = false →
   _execute_complex_tasks self tasks user_input w = (Raise TypeError, w)).
Proof.
  intros Hs Hne Hl Hr tasks. split.
  - intros Henc.
    pose proof (handle_search_returns_listing self filters w properties lines
                  Hs Hne Hl Henc) as Hsearch.
    set (w1 :=
           (Memory.set_context "last_search_results" (JArr properties) w).2)
      in *.
    assert (last_search_results w1 = JArr properties) as Hstored
      by apply set_context_last_search_results.
    pose proof (handle_report_with_results self report_params w1 properties
                  Hstored Hne) as Hreport.
    rewrite Hr in Hreport.
    exists (set_reports (reports w1 ++ [JArr (take 10 properties)]) w1).
    split_and!.
    + unfold _execute_complex_tasks, mbind, M_bind.
      assert (execute_loop self tasks user_input [] w
              = (Ok (zip_with block tasks
                       [ "Found " ++ pretty (length properties)
                         ++ " properties:" ++ LF ++ LF ++ lines_text lines
                         ++ overflow_note (length properties);
                         "Report generated successfully! Saved to: "
                         ++ str self pdf_path ]),
                 set_reports (reports w1 ++ [JArr (take 10 properties)]) w1))
        as ->.
      { apply execute_loop_runs. eexists. split.
        - econstructor; [unfold _execute_task; simpl; exact Hsearch|].
          econstructor; [unfold _execute_task; simpl; exact Hreport|].
          constructor.
        - reflexivity. }
      unfold mret, M_ret, block, human_readable. simpl.
      by rewrite ?string_app_assoc.
    + simpl. f_equal. unfold w1, Memory.set_context, modify. simpl.
      by destruct (redis_available w).
    + rewrite <- Hstored. apply same_session_results. by repeat split.
  - intros Hra Henc.
    pose proof (handle_search_refuses self filters w properties lines
                  Hs Hne Hl Hra Henc) as Hsearch.
    unfold _execute_complex_tasks, tasks. simpl.
    unfold mbind, M_bind, _execute_task. simpl. by rewrite Hsearch.
Qed.

Lemma search_then_report_same_turn_witness :
  (∃ w',
    _execute_complex_tasks demo_agents
      [ {| agent := "search_property";
           params := {[ "location" := JStr "Mumbai" ]} |};
        {| agent := "generate_report"; params := ∅ |} ]
      "find flats and report" demo_world
    = (Ok (LF ++ LF ++ "**Search Property:**" ++ LF
           ++ ("Found " ++ pretty (length demo_rows) ++ " properties:"
               ++ LF ++ LF
               ++ lines_text ["- a property" ++ LF; "- a property" ++ LF]
               ++ overflow_note (length demo_rows))
           ++ separator ++ "**Generate Report:**" ++ LF
           ++ ("Report generated successfully! Saved to: "
               ++ str demo_agents (JStr "reports/property_report.pdf"))), w') ∧
    reports w' = (reports demo_world ++ [JArr (take 10 demo_rows)])%list ∧
    last_search_results w' = JArr demo_rows) ∧
  _execute_complex_tasks demo_agents_dated
      [ {| agent := "search_property";
           params := {[ "location" := JStr "Mumbai" ]} |};
        {| agent := "generate_report"; params := ∅ |} ]
      "find flats and report" (fresh_world "default_user")
    = (Raise TypeError, fresh_world "default_user").
Proof.
  split.
  - apply (proj1 (search_then_report_same_turn demo_agents
             {[ "location" := JStr "Mumbai" ]} ∅ "find flats and report"
             demo_world demo_rows ["- a property" ++ LF; "- a property" ++ LF]
             (JStr "reports/property_report.pdf")
             eq_refl ltac:(discriminate) ltac:(repeat constructor) eq_refl)).
    by left.
  - exact (proj2 (search_then_report_same_turn demo_agents_dated
             {[ "location" := JStr "Mumbai" ]} ∅ "find flats and report"
             (fresh_world "default_user") demo_rows
             ["- a property" ++ LF; "- a property" ++ LF]
             (JStr "reports/property_report.pdf")
             eq_refl ltac:(discriminate) ltac:(repeat constructor) eq_refl)
             eq_refl eq_refl).
Defined.

Lemma execute_loop_failure self user_input done_tasks : ∀ acc w responses w1
    t rest e w2,
  runs self user_input done_tasks w responses w1 →
  _execute_task self t user_input w1 = (Raise e, w2) →
  execute_loop self (done_tasks ++ t :: rest) user_input acc w
    = (Raise e, w2).
Proof.
  induction done_tasks as [|d ds IH];
    intros acc w responses w1 t rest e w2 Hruns Hfail.
  - inversion Hruns; subst. simpl. unfold mbind, M_bind. by rewrite Hfail.
  - inversion Hruns as [|? ? ? r w' rs ? Hd Hrest]; subst.
    simpl. unfold mbind, M_bind. rewrite Hd. by eapply IH.
Qed.

(** X22. A plan stops at the first task that raises, and nothing is rolled
    back: when the tasks before it have run and it raises, the whole plan
    raises the same exception in the state that task left, which holds
    every effect of the earlier tasks; the tasks after it are not run. *)
Theorem complex_tasks_stop_at_failure (self : agents) (user_input : string)
    (done_tasks : list task) (t : task) (rest : list task) (w : world)
    (responses : list string) (w1 : world) (e : exn) (w2 : world) :
  runs self user_input done_tasks w responses w1 →
  _execute_task self t user_input w1 = (Raise e, w2) →
  _execute_complex_tasks self (done_tasks ++ t :: rest) user_input w
    = (Raise e, w2).
Proof.
  intros Hruns Hfail. unfold _execute_complex_tasks, mbind, M_bind.
  by rewrite (execute_loop_failure _ _ _ _ _ _ _ _ _ _ _ Hruns Hfail).
Qed.

Lemma complex_tasks_stop_at_failure_witness :
  _execute_complex_tasks demo_agents
    ([ {| agent := "search_property";
          params := {[ "location" := JStr "Mumbai" ]} |} ]
     ++ {| agent := "save_preference";
           params := {[ "location" := JStr "Mumbai" ]} |}
     :: [ {| agent := "generate_report"; params := ∅ |} ])
    "find, save, report" demo_world_offline
    = (Raise OperationalError,
       set_shortterm
         {[ "session:default_user:last_search_results" := JArr demo_rows ]}
         demo_world_offline).
Proof.
  eapply (complex_tasks_stop_at_failure demo_agents "find, save, report"
            [ {| agent := "search_property";
                 params := {[ "location" := JStr "Mumbai" ]} |} ]).
  - econstructor; [vm_compute; reflexivity|constructor].
  - vm_compute. reflexivity.
Defined.

(** X23. A turn that fails still records the question, once, and no
    answer: whatever raises -- the classifier, the planner or a handler --
    the log is the earlier log followed by the user's turn, and the clock
    has been read once. *)
Theorem chat_failure_records_question (self : agents) (user_input : string)
    (w : world) (e : exn) (w' : world) :
  chat self user_input w = (Raise e, w') →
  episodic w' = (episodic w ++ [user_turn self user_input w])%list ∧
  clock_reads w' = S (clock_reads w).
Proof.
  intros H. split; [by eapply chat_failure_keeps_question|].
  revert H. unfold chat, Memory.add_message, modify, mbind, M_bind, lift.
  destruct (route self user_input) as [[[query_type ints] sl]|e1];
    [|by intros [= _ <-]].
  destruct (Planner.plan query_type ints sl) as [tasks|e2];
    [|by intros [= _ <-]].
  match goal with
  | |- context [dispatch self query_type tasks user_input ?w1] =>
      pose proof (dispatch_same_log self query_type tasks user_input w1)
        as [_ Hclock];
      destruct (dispatch self query_type tasks user_input w1) as [[r|e3] w2]
  end; [discriminate|].
  intros [= _ <-]. exact Hclock.
Qed.

Lemma chat_failure_records_question_witness :
  episodic
    (chat (with_router (demo_service PostRaises) demo_agents) "Find flats"
          demo_world).2
    = (episodic demo_world
       ++ [user_turn (with_router (demo_service PostRaises) demo_agents)
             "Find flats" demo_world])%list.
Proof.
  apply (chat_failure_records_question
           (with_router (demo_service PostRaises) demo_agents) "Find flats"
           demo_world RequestException).
  reflexivity.
Defined.

(** X24. An out-of-scope turn involves no handler: it returns the fixed
    refusal, and the state afterwards is the state before with the two
    turns added to the log -- session memory, preferences and the record
    of report builds are not touched. *)
Theorem chat_out_of_scope (self : agents) (user_input : string) (w : world)
    (ints : list string) (sl : json) :
  route self user_input = Ok ("out_of_scope", ints, sl) →
  chat self user_input w
    = (Ok refusal,
       set_episodic
         (episodic w ++ [ user_turn self user_input w;
                          assistant_turn self refusal w ])
         (S (S (clock_reads w))) w).
Proof.
  intros Hroute. unfold chat, Memory.add_message, modify, mbind, M_bind, lift.
  rewrite Hroute. unfold Planner.plan, dispatch. simpl.
  unfold set_episodic, user_turn, assistant_turn. simpl.
  by rewrite <- app_assoc.
Qed.

Lemma chat_out_of_scope_witness :
  chat (with_route (λ _, Ok ("out_of_scope", [], JObj ∅)) demo_agents)
       "Who is the president?" demo_world_after_search
    = (Ok refusal,
       set_episodic
         (episodic demo_world_after_search
          ++ [ {| role := "user"; content := "Who is the president?";
                  timestamp := "t2" |};
               {| role := "assistant"; content := refusal;
                  timestamp := "t3" |} ])
         4 demo_world_after_search).
Proof.
  rewrite (chat_out_of_scope
             (with_route (λ _, Ok ("out_of_scope", [], JObj ∅)) demo_agents)
             "Who is the president?" demo_world_after_search [] (JObj ∅)
             eq_refl).
  reflexivity.
Defined.

Lemma add_message_same_session now r c w :
  same_session w (Memory.add_message now r c w).2 ∧
  reports (Memory.add_message now r c w).2 = reports w.
Proof. by repeat split. Qed.

(** X25. What a search turn stores is there for a later turn: after a
    simple search turn that found properties, a simple report turn builds
    the report from the first ten of those properties and returns the
    success message with the builder's path, whatever slots the
    classifier extracted for it. *)
Theorem report_turn_after_search_turn (self : agents)
    (question1 question2 : string) (slots1 : gmap string json) (slots2 : json)
    (filters : gmap string json) (properties : list json) (pdf_path : json)
    (w : world) (response1 : string) (w1 : world) :
  route self question1 = Ok ("simple-query", ["search_property"], JObj slots1) →
  Planner._extract_relevant_params "search_property" (JObj slots1)
    = Ok filters →
  search_properties self filters = Ok properties → properties ≠ [] →
  chat self question1 w = (Ok response1, w1) →
  route self question2 = Ok ("simple-query", ["generate_report"], slots2) →
  generate_report self (JArr (take 10 properties)) = Ok pdf_path →
  ∃ w2,
    chat self question2 w1
      = (Ok ("Report generated successfully! Saved to: " ++ str self pdf_path),
         w2) ∧
    reports w2 = (reports w ++ [JArr (take 10 properties)])%list.
Proof.
  intros Hr1 Hf Hs Hne Hchat1 Hr2 Hb.
  assert (last_search_results w1 = JArr properties ∧ reports w1 = reports w)
    as [Hstored Hreports].
  { revert Hchat1.
    unfold chat, mbind, M_bind, lift. simpl. rewrite Hr1.
    unfold Planner.plan, Planner._plan_simple. simpl.
    unfold mbind, res_bind. rewrite Hf. unfold dispatch. simpl.
    unfold _execute_task. simpl.
    match goal with
    | |- context [_handle_search self filters ?w0] =>
        destruct (_handle_search self filters w0) as [[text|e] w0'] eqn:Hh;
          [|discriminate];
        destruct (handle_search_stores self filters w0 text w0' properties
                    Hh Hs Hne) as [Hst Hrp]
    end.
    intros [= _ <-]. split.
    - rewrite <- Hst. apply same_session_results. by repeat split.
    - exact Hrp. }
  unfold chat, mbind, M_bind, lift. simpl. rewrite Hr2.
  assert (Planner.plan "simple-query" ["generate_report"] slots2
          = Ok [ {| agent := "generate_report"; params := ∅ |} ]) as ->
    by reflexivity.
  unfold dispatch. simpl. unfold _execute_task. simpl.
  match goal with
  | |- context [_handle_report self ∅ ?w0] =>
      assert (last_search_results w0 = JArr properties) as Hstored0
        by (rewrite <- Hstored; apply same_session_results; by repeat split);
      rewrite (handle_report_with_results self ∅ w0 properties Hstored0 Hne)
  end.
  rewrite Hb. eexists. split; [reflexivity|].
  simpl. by rewrite Hreports.
Qed.

Lemma report_turn_after_search_turn_witness :
  ∃ w2,
    chat demo_two_turn_agents "Now make a report"
      (chat demo_two_turn_agents "Find flats in Mumbai" demo_world).2
    = (Ok ("Report generated successfully! Saved to: "
           ++ str demo_two_turn_agents (JStr "reports/property_report.pdf")),
       w2) ∧
    reports w2 = (reports demo_world ++ [JArr (take 10 demo_rows)])%list.
Proof.
  assert (∀ (p : res string * world) a, p.1 = a → p = (a, p.2)) as Hpair
    by (intros [] ? <-; done).
  apply (report_turn_after_search_turn demo_two_turn_agents
           "Find flats in Mumbai" "Now make a report" demo_slots JNull
           {[ "location" := JStr "Mumbai"; "num_rooms" := JInt 2 ]}
           demo_rows (JStr "reports/property_report.pdf") demo_world
           demo_listing).
  - reflexivity.
  - vm_compute. reflexivity.
  - reflexivity.
  - discriminate.
  - apply Hpair. vm_compute. reflexivity.
  - reflexivity.
  - reflexivity.
Defined.

End TurnFacts.

(** ** The renovation estimator *)

Section RenovationFacts.
Import RenovationEstimator.

(** X26. An estimate is an error exactly when no size is given and the
    number of rooms is missing or zero; otherwise the size is the given
    one -- the rooms are then ignored -- or the one estimated from the
    rooms, each level's total is the size times its rate of 500, 1200 or
    2500, and for a size that is not negative the totals rise from basic
    to premium. *)
Theorem estimate_costs (size rooms : option Z) :
  match estimate size rooms with
  | CostsError error =>
      size = None ∧ (rooms = None ∨ rooms = Some 0) ∧
      error = "Need property size or number of rooms"
  | Costs s basic moderate premium =>
      (size = Some s ∨
       size = None ∧ ∃ n, rooms = Some n ∧ n ≠ 0 ∧ s = _estimate_size n) ∧
      total basic = s * 500 ∧ total moderate = s * 1200 ∧
      total premium = s * 2500 ∧
      (0 ≤ s → total basic ≤ total moderate ≤ total premium)
  end.
Proof.
  unfold estimate, rate_basic, rate_moderate, rate_premium.
  destruct size as [s|]; simpl.
  - destruct rooms; (split_and!; [by left|done..|lia]).
  - destruct rooms as [n|]; simpl; [|by split_and!; [|left|]].
    destruct (Z.eqb_spec n 0) as [->|Hn]; simpl.
    + by split_and!; [|right|].
    + split_and!; [right; split; [done|by exists n]|done..|lia].
Qed.

(** X27. The size estimated from the rooms is positive and never shrinks
    as the rooms grow, from one room on, and it is never below 450 square
    feet a room. *)
Theorem estimate_size_monotone (n m : Z) :
  1 ≤ n → n ≤ m →
  0 < _estimate_size n ∧ n * 450 ≤ _estimate_size n ∧
  _estimate_size n ≤ _estimate_size m.
Proof.
  intros Hn Hm. unfold _estimate_size.
  repeat match goal with
         | |- context [?a =? ?b] => destruct (Z.eqb_spec a b)
         end; lia.
Qed.

Lemma estimate_size_monotone_witness :
  0 < _estimate_size 4 ∧ 4 * 450 ≤ _estimate_size 4 ∧
  _estimate_size 4 ≤ _estimate_size 5.
Proof. apply estimate_size_monotone; lia. Defined.

Lemma pretty_N_go_comma_free x : ∀ s,
  Forall (λ c, c ≠ ","%char) (list_ascii_of_string s) →
  Forall (λ c, c ≠ ","%char) (list_ascii_of_string (pretty_N_go x s)).
Proof.
  induction (N.lt_wf_0 x) as [x _ IH]; intros s Hs.
  assert (x = 0 ∨ 0 < x)%N as [->|Hx] by lia.
  - by rewrite pretty_N_go_0.
  - rewrite pretty_N_go_step by done. apply IH; [by apply N.div_lt|].
    simpl. apply List.Forall_cons; [|done].
    unfold pretty_N_char. by repeat case_match.
Qed.

Lemma pretty_abs_comma_free (n : Z) :
  Forall (λ c, c ≠ ","%char) (list_ascii_of_string (pretty (Z.abs n))).
Proof.
  assert (∀ p : positive,
    Forall (λ c, c ≠ ","%char) (list_ascii_of_string (pretty (Z.pos p))))
    as Hpos.
  { intros p. unfold pretty, pretty_Z, pretty, pretty_positive, pretty, pretty_N.
    case_decide; [done|]. apply pretty_N_go_comma_free. constructor. }
  destruct n as [|p|p]; simpl; [|apply Hpos..].
  repeat constructor. discriminate.
Qed.

Lemma group_thousands_filter n : ∀ l : list ascii,
  (length l ≤ n)%nat → Forall (λ c, c ≠ ","%char) l →
  filter (λ c, c ≠ ","%char) (group_thousands l) = l.
Proof.
  induction n as [|n IH]; intros l Hlen Hl.
  - destruct l; [done|simpl in Hlen; lia].
  - destruct l as [|a [|b [|c [|d rest]]]].
    + done.
    + change (group_thousands [a]) with [a].
      apply Forall_cons in Hl as [Ha _].
      by rewrite filter_cons_True.
    + change (group_thousands [a; b]) with [a; b].
      apply Forall_cons in Hl as [Ha Hl].
      apply Forall_cons in Hl as [Hb _].
      by rewrite !filter_cons_True.
    + change (group_thousands [a; b; c]) with [a; b; c].
      apply Forall_cons in Hl as [Ha Hl].
      apply Forall_cons in Hl as [Hb Hl]. apply Forall_cons in Hl as [Hc _].
      by rewrite !filter_cons_True.
    + change (group_thousands (a :: b :: c :: d :: rest))
        with (a :: b :: c :: ","%char :: group_thousands (d :: rest)).
      apply Forall_cons in Hl as [Ha Hl].
      apply Forall_cons in Hl as [Hb Hl]. apply Forall_cons in Hl as [Hc Hl].
      rewrite !filter_cons_True by done.
      rewrite filter_cons_False by (intros H; by apply H).
      rewrite IH; [done| |done]. simpl in *. lia.
Qed.

(** X28. What the estimator prints: without a size and without rooms
    (or with zero rooms) the formatted estimate is exactly the message
    asking for them; and an amount printed with thousands separators is
    the amount's decimal numeral once the commas are taken out. *)
Theorem format_estimate_text (rooms : option Z) (amount : Z) :
  (rooms = None ∨ rooms = Some 0 →
     format_estimate (estimate None rooms)
       = "Need property size or number of rooms") ∧
  without_commas (with_commas amount) = pretty amount.
Proof.
  split.
  - by intros [-> | ->].
  - unfold with_commas, without_commas.
    assert (filter (λ c, c ≠ ","%char)
              (list_ascii_of_string
                 (string_of_list_ascii
                    (reverse (group_thousands
                       (reverse (list_ascii_of_string
                                   (pretty (Z.abs amount))))))))
            = list_ascii_of_string (pretty (Z.abs amount))) as Hdigits.
    { rewrite list_ascii_of_string_of_list_ascii, filter_reverse.
      rewrite (group_thousands_filter _ _ (le_n _))
        by apply Forall_reverse, pretty_abs_comma_free.
      apply reverse_involutive. }
    destruct amount as [|p|p].
    + reflexivity.
    + change (Z.pos p <? 0) with false.
      change (if false then "-" else EmptyString) with EmptyString.
      rewrite string_app_nil_l.
      rewrite Hdigits. apply string_of_list_ascii_of_string.
    + change (Z.neg p <? 0) with true.
      change (if true then "-" else EmptyString) with (String "-" EmptyString).
      rewrite string_app_cons, string_app_nil_l.
      change (list_ascii_of_string (String "-" ?s))
        with ("-"%char :: list_ascii_of_string s).
      rewrite filter_cons_True by done. rewrite Hdigits.
      change (string_of_list_ascii ("-"%char :: ?l))
        with (String "-" (string_of_list_ascii l)).
      by rewrite string_of_list_ascii_of_string.
Qed.

Lemma format_estimate_text_witness :
  format_estimate (estimate None (Some 0))
    = "Need property size or number of rooms" ∧
  with_commas 1234567 = "1,234,567" ∧ with_commas (-1200000) = "-1,200,000".
Proof.
  split; [|split; reflexivity].
  apply (proj1 (format_estimate_text (Some 0) 0)). by right.
Defined.

(** The reply for 1200 square feet. *)
Example format_estimate_1200 :
  format_estimate (estimate (Some 1200) None)
    = "Renovation Cost Estimates for 1200 sqft:" ++ LF ++ LF
      ++ "BASIC:" ++ LF ++ "  Total: Rs.600,000" ++ LF
      ++ "  Rate: Rs.500/sqft" ++ LF
      ++ "  Includes: Basic painting, minor repairs" ++ LF ++ LF
      ++ "MODERATE:" ++ LF ++ "  Total: Rs.1,440,000" ++ LF
      ++ "  Rate: Rs.1200/sqft" ++ LF
      ++ "  Includes: Flooring, electrical, plumbing upgrades" ++ LF ++ LF
      ++ "PREMIUM:" ++ LF ++ "  Total: Rs.3,000,000" ++ LF
      ++ "  Rate: Rs.2500/sqft" ++ LF
      ++ "  Includes: Complete makeover with modular fittings" ++ LF ++ LF.
Proof. vm_compute. reflexivity. Qed.

End RenovationFacts.

(** ** The web research agent *)

Section WebResearchFacts.
Import WebResearchAgent.

(** X29. Web research never fails the turn: without a key (unset or
    empty), when the request raises, when the status is not 200, when
    the body does not decode or is not an object, and when the results
    cannot be summarised, it returns the fallback -- no results and the
    canned message that quotes the query. *)
Theorem research_degrades (self : web_service) (query : string) :
  (tavily_api_key self = None ∨ tavily_api_key self = Some EmptyString →
     research self query = _fallback_response query) ∧
  (tavily_post self query = PostRaises →
     research self query = _fallback_response query) ∧
  (∀ status body, tavily_post self query = Response status body →
     status ≠ 200 → research self query = _fallback_response query) ∧
  (tavily_post self query = Response 200 None →
     research self query = _fallback_response query) ∧
  (∀ data, tavily_post self query = Response 200 (Some data) →
     (∀ m, data ≠ JObj m) →
     research self query = _fallback_response query) ∧
  (∀ m e, tavily_post self query = Response 200 (Some (JObj m)) →
     _summarize_results self (default (JArr []) (m !! "results")) = Raise e →
     research self query = _fallback_response query).
Proof.
  unfold research, research_attempt. split_and!.
  - by intros [-> | ->].
  - intros ->. by destruct (tavily_api_key self) as [[|? ?]|].
  - intros status body -> Hs.
    destruct (Z.eqb_spec status 200); [done|].
    by destruct (tavily_api_key self) as [[|? ?]|].
  - intros ->. by destruct (tavily_api_key self) as [[|? ?]|].
  - intros data -> Hd. simpl.
    destruct (tavily_api_key self) as [[|? ?]|]; try done.
    destruct data; try done. by edestruct Hd.
  - intros m e -> He. simpl. rewrite He.
    by destruct (tavily_api_key self) as [[|? ?]|].
Qed.

Lemma research_degrades_witness :
  research (demo_web None (Response 200 None)) "rates in Delhi"
    = _fallback_response "rates in Delhi" ∧
  research (demo_web (Some "tvly-key") (Response 500 None)) "rates in Delhi"
    = _fallback_response "rates in Delhi".
Proof.
  split.
  - apply (proj1 (research_degrades _ _)). by left.
  - apply (proj1 (proj2 (proj2 (research_degrades
             (demo_web (Some "tvly-key") (Response 500 None))
             "rates in Delhi"))) 500 None); [reflexivity|lia].
Defined.

Lemma summary_parts_text self (results : list (gmap string json)) :
  ∀ (texts : list (string * string)) (i : nat),
  Forall2 (λ result text, text_field result "title" = Some text.1 ∧
                          text_field result "content" = Some text.2)
          results texts →
  summary_parts self (S i) (JObj <$> results)
    = Ok (imap (λ j text, numbered_part (i + j) text.1 text.2) texts).
Proof.
  induction results as [|result rest IH]; intros texts i Hall.
  - by apply Forall2_nil_inv_l in Hall as ->.
  - apply Forall2_cons_inv_l in Hall as ([title content] & texts' & [Ht Hc]
                                          & Hall & ->).
    rewrite fmap_cons. simpl. unfold text_field in Ht, Hc. simpl in Ht, Hc.
    destruct (default (JStr "N/A") (result !! "title")) eqn:Et;
      try discriminate. injection Ht as ->.
    destruct (default (JStr "N/A") (result !! "content")) eqn:Ec;
      try discriminate. injection Hc as ->.
    simpl. rewrite (IH texts' (S i) Hall). simpl.
    unfold numbered_part. rewrite Nat.add_0_r. do 2 f_equal.
    apply imap_ext. intros j text _. simpl.
    by rewrite Nat.add_succ_r.
Qed.

(** X30. What a successful search is summarised to: with no results
    (the key missing, or an empty list) the summary says that no recent
    data was found; with results that carry text, it is made of the
    first three results at most, each numbered from 1, with its title
    and the first 200 characters of its content, separated by blank
    lines, and the results themselves are passed on whole. *)
Theorem research_summary (self : web_service) (query key : string)
    (data : gmap string json) :
  tavily_api_key self = Some key → key ≠ EmptyString →
  tavily_post self query = Response 200 (Some (JObj data)) →
  (data !! "results" = None →
     research self query = (JArr [], no_data)) ∧
  (data !! "results" = Some (JArr []) →
     research self query = (JArr [], no_data)) ∧
  (∀ results texts,
     data !! "results" = Some (JArr (JObj <$> results)) → results ≠ [] →
     Forall2 (λ result text, text_field result "title" = Some text.1 ∧
                             text_field result "content" = Some text.2)
             (take 3 results) texts →
     research self query
       = (JArr (JObj <$> results),
          RealEstateChatbot.join (LF ++ LF)
            (imap (λ j text, numbered_part j text.1 text.2) texts))
       ∧ (length texts ≤ 3)%nat).
Proof.
  intros Hkey Hne Hpost. unfold research, research_attempt.
  rewrite Hkey, Hpost. destruct key as [|a key]; [done|]. simpl.
  split_and!.
  - by intros ->.
  - by intros ->.
  - intros results texts -> Hres Hall.
    split; [|apply Forall2_length in Hall; rewrite <- Hall, length_take; lia].
    simpl. unfold _summarize_results.
    destruct results as [|r rs]; [done|]. simpl Py.truthy. cbn [negb].
    rewrite <- fmap_take.
    rewrite (summary_parts_text self (take 3 (r :: rs)) texts 0 Hall).
    reflexivity.
Qed.

Lemma research_summary_witness :
  research demo_web_ok "market rates"
    = (JArr demo_results,
       "1. Mumbai rates: Prices rose...." ++ LF ++ LF
       ++ "2. Delhi rates: Prices fell....").
Proof.
  rewrite (proj1 (proj2 (proj2 (research_summary demo_web_ok "market rates"
             "tvly-key" {[ "results" := JArr demo_results ]}
             eq_refl ltac:(discriminate) eq_refl))
           [ {[ "title" := JStr "Mumbai rates";
                "content" := JStr "Prices rose." ]};
             {[ "title" := JStr "Delhi rates";
                "content" := JStr "Prices fell." ]} ]
           [ ("Mumbai rates", "Prices rose.");
             ("Delhi rates", "Prices fell.") ]
           eq_refl ltac:(discriminate)
           ltac:(repeat constructor))).
  reflexivity.
Defined.

End WebResearchFacts.
